(** * learn-quest-builder-pro: validation, classification, redundancy,
      TOS matrix and test preview

    A shallow embedding of the decision logic of the hooks and components

    - [useClassificationValidation] (submitValidation, rejectValidation),
    - [useEnhancedClassification]   (classifyQuestion),
    - [useSemanticAnalysis]         (analyzeQuestionBank),
    - [TOSMatrix]                   (formatItemNumbers, bloomTotals, grandTotal),
    - [TestPreview]                 (totalPoints, handlePrint),

    followed by the properties the specification states about them.

    Conventions.  JavaScript numbers that carry measurements (confidence,
    quality, similarity, points) are IEEE-754 binary64 values, modelled by
    Rocq's primitive floats.  Item numbers are integers ([Z]) and lengths are
    natural numbers.  The hosted store is a record of tables; the question
    table is keyed by its primary key.  A rejected promise or a thrown value
    is an [Err]. *)

From Stdlib Require Import ZArith List Bool Floats Lia Permutation.
From stdpp Require Import gmap strings list pretty.

Set Warnings "-inexact-float".
Local Open Scope string_scope.
Local Open Scope list_scope.

(** ** Thrown values and results *)

(** What a [catch] clause receives: an [Error] object with its message, or
    some other thrown value. *)
Inductive Thrown : Type :=
| ErrorObject (message : string)
| OtherValue.

Inductive result (A : Type) : Type :=
| Ok (a : A)
| Err (e : Thrown).
Arguments Ok {A} a.
Arguments Err {A} e.

(** ** JavaScript numbers *)
Module JsNum.

(** Truthiness of a number: everything except [0], [-0] and [NaN]. *)
Definition truthy (x : float) : bool :=
  negb (PrimFloat.is_zero x || PrimFloat.is_nan x).

(** [x >= y] in JavaScript. *)
Definition geb (x y : float) : bool := PrimFloat.leb y x.

(** [x < y] in JavaScript. *)
Definition ltb (x y : float) : bool := PrimFloat.ltb x y.

End JsNum.

(** ** The validation workflow (hook useClassificationValidation) *)
Module Validation.

(** The columns of the [questions] table the hook reads or writes. *)
Record Question : Type := {
  question_text : string;
  bloom_level : string;
  knowledge_dimension : string;
  difficulty : string;
  classification_confidence : float;
  validation_status : string;
  validated_by : option string;
  validation_timestamp : option string;
  needs_review : bool
}.

(** [ValidationRequest.original_classification] and the object built by
    submitValidation from the selected columns. *)
Record OriginalClassification : Type := {
  oc_bloom_level : string;
  oc_knowledge_dimension : string;
  oc_difficulty : string;
  oc_confidence : float
}.

(** [ValidationResult.validated_classification]. *)
Record ValidatedClassification : Type := {
  vc_bloom_level : string;
  vc_knowledge_dimension : string;
  vc_difficulty : string
}.

Record ValidationResult : Type := {
  validated_classification : ValidatedClassification;
  validation_confidence : float;
  notes : option string;
  changes_made : list string
}.

(** A row of [classification_validations].  The two classification
    payloads are JSON objects; [None] is the empty object written by
    rejectValidation. *)
Record ValidationRecord : Type := {
  vr_question_id : string;
  vr_original_classification : option OriginalClassification;
  vr_validated_classification : option ValidatedClassification;
  vr_validator_id : string;
  vr_validation_confidence : float;
  vr_notes : option string
}.

Inductive RequestType : Type := peer_review | expert_review.

Inductive RequestStatus : Type := pending | in_progress | completed | cancelled.

(** A row of [review_requests]. *)
Record ReviewRequest : Type := {
  rr_id : string;
  rr_question_id : string;
  rr_request_type : RequestType;
  rr_requested_by : string;
  rr_assigned_to : option string;
  rr_status : RequestStatus
}.

(** The three tables the hook touches. *)
Record Store : Type := {
  questions : gmap string Question;
  classification_validations : list ValidationRecord;
  review_requests : list ReviewRequest
}.

(** What the hook reads from its surroundings: the signed-in user
    ([supabase.auth.getUser()]) and the clock ([new Date().toISOString()]). *)
Record Env : Type := {
  auth_user : option string;
  now : string
}.

(** *** A small monad for store operations that may throw *)

Definition Db (A : Type) : Type := Env -> Store -> result (A * Store).

Definition ret {A} (a : A) : Db A := fun _ s => Ok (a, s).

Definition bind {A B} (m : Db A) (k : A -> Db B) : Db B :=
  fun env s =>
    match m env s with
    | Ok (a, s') => k a env s'
    | Err e => Err e
    end.

Definition throw {A} (e : Thrown) : Db A := fun _ _ => Err e.

Declare Scope db_scope.
Delimit Scope db_scope with db.
Notation "x <- m ;; k" := (bind m (fun x => k))
  (at level 100, m at next level, right associativity) : db_scope.
Notation "m ;;; k" := (bind m (fun _ => k))
  (at level 100, right associativity) : db_scope.
Local Open Scope db_scope.

(** [supabase.auth.getUser()] followed by the [if (!user) throw]. *)
Definition getUser : Db string :=
  fun env s =>
    match auth_user env with
    | Some uid => Ok (uid, s)
    | None => Err (ErrorObject "User not authenticated")
    end.

Definition getNow : Db string := fun env s => Ok (now env, s).

(** [from('questions').select(...).eq('id', questionId).single()] followed
    by [if (questionError) throw questionError]: a missing row is an error,
    and what is thrown is the client's error record, a plain object that is
    no instance of [Error]. *)
Definition selectQuestionSingle (questionId : string) : Db Question :=
  fun _ s =>
    match questions s !! questionId with
    | Some q => Ok (q, s)
    | None => Err OtherValue
    end.

(** [from('classification_validations').insert(row)]. *)
Definition insertValidation (row : ValidationRecord) : Db unit :=
  fun _ s =>
    Ok (tt, {| questions := questions s;
               classification_validations := classification_validations s ++ [row];
               review_requests := review_requests s |}).

(** [from('questions').update(patch).eq('id', questionId)]: the rows with
    that id are patched, no row is no error. *)
Definition updateQuestion (questionId : string) (patch : Question -> Question) : Db unit :=
  fun _ s =>
    Ok (tt, {| questions := alter patch questionId (questions s);
               classification_validations := classification_validations s;
               review_requests := review_requests s |}).

Definition set_status (st : RequestStatus) (r : ReviewRequest) : ReviewRequest :=
  {| rr_id := rr_id r;
     rr_question_id := rr_question_id r;
     rr_request_type := rr_request_type r;
     rr_requested_by := rr_requested_by r;
     rr_assigned_to := rr_assigned_to r;
     rr_status := st |}.

(** The row filter [.eq('question_id', questionId).eq('assigned_to', uid)]. *)
Definition request_matches (questionId uid : string) (r : ReviewRequest) : bool :=
  bool_decide (rr_question_id r = questionId)
  && bool_decide (rr_assigned_to r = Some uid).

(** [from('review_requests').update({ status: 'completed' })
      .eq('question_id', questionId).eq('assigned_to', user.id)]. *)
Definition completeRequests (questionId uid : string) : Db unit :=
  fun _ s =>
    Ok (tt, {| questions := questions s;
               classification_validations := classification_validations s;
               review_requests :=
                 map (fun r => if request_matches questionId uid r
                               then set_status completed r else r)
                     (review_requests s) |}).

(** The patch submitValidation applies to the question row. *)
Definition validated_patch (uid ts : string) (vr : ValidationResult) (q : Question) : Question :=
  {| question_text := question_text q;
     bloom_level := vc_bloom_level (validated_classification vr);
     knowledge_dimension := vc_knowledge_dimension (validated_classification vr);
     difficulty := vc_difficulty (validated_classification vr);
     classification_confidence := validation_confidence vr;
     validation_status := "validated";
     validated_by := Some uid;
     validation_timestamp := Some ts;
     needs_review := needs_review q |}.

(** The patch rejectValidation applies to the question row. *)
Definition rejected_patch (uid ts : string) (q : Question) : Question :=
  {| question_text := question_text q;
     bloom_level := bloom_level q;
     knowledge_dimension := knowledge_dimension q;
     difficulty := difficulty q;
     classification_confidence := classification_confidence q;
     validation_status := "rejected";
     validated_by := Some uid;
     validation_timestamp := Some ts;
     needs_review := true |}.

(** The classification of a question as submitValidation reads it. *)
Definition classification_of (q : Question) : OriginalClassification :=
  {| oc_bloom_level := bloom_level q;
     oc_knowledge_dimension := knowledge_dimension q;
     oc_difficulty := difficulty q;
     oc_confidence := classification_confidence q |}.

(** submitValidation.  The calls that follow the three writes
    (loadValidationRequests, loadValidationStats) only read the store and
    catch their own errors. *)
Definition submitValidation (questionId : string) (validationResult : ValidationResult) : Db unit :=
  user <- getUser ;;
  question <- selectQuestionSingle questionId ;;
  let originalClassification := classification_of question in
  insertValidation
    {| vr_question_id := questionId;
       vr_original_classification := Some originalClassification;
       vr_validated_classification := Some (validated_classification validationResult);
       vr_validator_id := user;
       vr_validation_confidence := validation_confidence validationResult;
       vr_notes := notes validationResult |} ;;;
  ts <- getNow ;;
  updateQuestion questionId (validated_patch user ts validationResult) ;;;
  completeRequests questionId user.

(** requestValidation. *)
Definition requestValidation (newId questionId : string) (requestType : RequestType)
    (assignedTo : option string) : Db unit :=
  user <- getUser ;;
  (fun _ s =>
     Ok (tt, {| questions := questions s;
                classification_validations := classification_validations s;
                review_requests :=
                  review_requests s ++
                    [ {| rr_id := newId;
                         rr_question_id := questionId;
                         rr_request_type := requestType;
                         rr_requested_by := user;
                         rr_assigned_to := assignedTo;
                         rr_status := pending |} ] |})).

(** rejectValidation. *)
Definition rejectValidation (questionId reason : string) : Db unit :=
  user <- getUser ;;
  ts <- getNow ;;
  updateQuestion questionId (rejected_patch user ts) ;;;
  insertValidation
    {| vr_question_id := questionId;
       vr_original_classification := None;
       vr_validated_classification := None;
       vr_validator_id := user;
       vr_validation_confidence := 0%float;
       vr_notes := Some ("Rejected: " +:+ reason) |}.

(** Running an operation for its effect on the store. *)
Definition exec {A} (m : Db A) (env : Env) (s : Store) : result Store :=
  match m env s with
  | Ok (_, s') => Ok s'
  | Err e => Err e
  end.

End Validation.

(** ** Classification with quality gates (hook useEnhancedClassification) *)
Module Classification.

(** The fields of [MLClassificationResult] the hook uses; the type is
    declared by the classifier service. *)
Record MLClassificationResult : Type := {
  bloom_level : string;
  knowledge_dimension : string;
  difficulty : string;
  confidence : float;
  quality_score : float;
  readability_score : float;
  needs_review : bool
}.

Record QuestionInput : Type := {
  text : string;
  qi_type : string;
  topic : option string
}.

(** An entry of the list returned by semanticAnalyzer.findSimilarQuestions. *)
Record SimilarityResult : Type := {
  questionId1 : string;
  questionId2 : string;
  similarity : float;
  algorithm : string
}.

Record SimilarQuestion : Type := {
  sq_id : string;
  sq_text : string;
  sq_similarity : float
}.

(** The declared union has three members; classifyQuestion stores a
    fourth, ['needs_review']. *)
Inductive ValidationStatus : Type :=
| vs_pending | vs_validated | vs_rejected | vs_needs_review.

Record ClassificationState : Type := {
  result_ : option MLClassificationResult;
  loading : bool;
  error : option string;
  similarQuestions : list SimilarQuestion;
  validationStatus : ValidationStatus;
  qualityIssues : list string
}.

Record UseEnhancedClassificationOptions : Type := {
  autoClassify : option bool;
  checkSimilarity : option bool;
  similarityThreshold : option float;
  qualityThreshold : option float
}.

(** Destructuring defaults of the hook's options. *)
Definition get_checkSimilarity (o : UseEnhancedClassificationOptions) : bool :=
  default true (checkSimilarity o).
Definition get_similarityThreshold (o : UseEnhancedClassificationOptions) : float :=
  default 0.7%float (similarityThreshold o).
Definition get_qualityThreshold (o : UseEnhancedClassificationOptions) : float :=
  default 0.6%float (qualityThreshold o).

(** A row of [quality_metrics] as storeClassificationResult writes it. *)
Record QualityMetric : Type := {
  characteristic : string;
  metric_name : string;
  value : float;
  measurement_method : string
}.

(** The collaborators of the hook.  [Err] is a rejected promise.  The
    question look-up destructures [{ data }] and so never throws: [None] is
    a null [data] or a null [question_text]. *)
Record Services : Type := {
  ml_classifyQuestion : QuestionInput -> result MLClassificationResult;
  findSimilarQuestions : string -> float -> result (list SimilarityResult);
  select_question_text : string -> option string;
  insert_quality_metric : QualityMetric -> result unit;
  insert_similarities : list (string * string * float * string) -> result unit
}.

(** What an observer of the call sees besides the state. *)
Inductive Effect : Type :=
| ConsoleError (label : string) (e : Thrown)
| ToastError (message : string)
| StoredMetric (m : QualityMetric)
| StoredSimilarities (rows : list (string * string * float * string)).

(** [text || ''] *)
Definition or_empty (o : option string) : string :=
  match o with
  | Some s => if bool_decide (s = "") then "" else s
  | None => ""
  end.

(** Step 2 of classifyQuestion: the three quality gates, in source order. *)
Definition qualityAssessment (qualityThreshold : float) (c : MLClassificationResult) : list string :=
  (if JsNum.ltb (quality_score c) qualityThreshold
   then ["Question quality below threshold"] else [])
  ++ (if JsNum.ltb 12%float (readability_score c)
      then ["Question may be too complex for target audience"] else [])
  ++ (if JsNum.ltb (confidence c) 0.7%float
      then ["Low classification confidence - needs human review"] else []).

(** Step 3: the first five similar questions with their texts. *)
Definition similarityCheck (svc : Services) (o : UseEnhancedClassificationOptions)
    (q : QuestionInput) : result (list SimilarQuestion) :=
  if get_checkSimilarity o then
    match findSimilarQuestions svc (text q) (get_similarityThreshold o) with
    | Err e => Err e
    | Ok similarities =>
        Ok (map (fun sim =>
                   {| sq_id := questionId2 sim;
                      sq_text := or_empty (select_question_text svc (questionId2 sim));
                      sq_similarity := similarity sim |})
                (take 5 similarities))
    end
  else Ok [].

Definition similarIssue (similar : list SimilarQuestion) : list string :=
  if (0 <? length similar)%nat
  then ["Found " +:+ pretty (length similar) +:+ " similar questions"]
  else [].

(** Step 4. *)
Definition determineStatus (c : MLClassificationResult) (issues : list string) : ValidationStatus :=
  if needs_review c || (0 <? length issues)%nat then vs_needs_review else vs_validated.

(** storeClassificationResult: its own try/catch; the similarity rows come
    from the state the hook rendered with, not from this run. *)
Definition storeClassificationResult (svc : Services) (rendered : ClassificationState)
    (c : MLClassificationResult) : list Effect :=
  let m1 := {| characteristic := "classification_quality"; metric_name := "ml_confidence";
               value := confidence c; measurement_method := "ml_classifier_v1" |} in
  let m2 := {| characteristic := "content_quality"; metric_name := "quality_score";
               value := quality_score c; measurement_method := "quality_assessor_v1" |} in
  let label := "Error storing classification result:" in
  match insert_quality_metric svc m1 with
  | Err e => [ConsoleError label e]
  | Ok _ =>
      match insert_quality_metric svc m2 with
      | Err e => [StoredMetric m1; ConsoleError label e]
      | Ok _ =>
          if (0 <? length (similarQuestions rendered))%nat then
            let rows := map (fun sim => ("temp", sq_id sim, sq_similarity sim, "semantic_analyzer_v1"))
                            (similarQuestions rendered) in
            match insert_similarities svc rows with
            | Err e => [StoredMetric m1; StoredMetric m2; ConsoleError label e]
            | Ok _ => [StoredMetric m1; StoredMetric m2; StoredSimilarities rows]
            end
          else [StoredMetric m1; StoredMetric m2]
      end
  end.

(** [error instanceof Error ? error.message : 'Classification failed'] *)
Definition error_message (e : Thrown) : string :=
  match e with
  | ErrorObject m => m
  | OtherValue => "Classification failed"
  end.

(** The first setState of classifyQuestion. *)
Definition start_loading (prev : ClassificationState) : ClassificationState :=
  {| result_ := result_ prev; loading := true; error := None;
     similarQuestions := similarQuestions prev;
     validationStatus := validationStatus prev;
     qualityIssues := qualityIssues prev |}.

(** The setState of the catch clause. *)
Definition fail_with (e : Thrown) (prev : ClassificationState) : ClassificationState :=
  {| result_ := result_ prev; loading := false; error := Some (error_message e);
     similarQuestions := similarQuestions prev;
     validationStatus := validationStatus prev;
     qualityIssues := qualityIssues prev |}.

(** The body of the try block up to the state it commits. *)
Definition classifyBody (svc : Services) (o : UseEnhancedClassificationOptions)
    (q : QuestionInput) : result (MLClassificationResult * ClassificationState) :=
  match ml_classifyQuestion svc q with
  | Err e => Err e
  | Ok classification =>
      let issues0 := qualityAssessment (get_qualityThreshold o) classification in
      match similarityCheck svc o q with
      | Err e => Err e
      | Ok similar =>
          let issues := issues0 ++ similarIssue similar in
          Ok (classification,
              {| result_ := Some classification;
                 loading := false;
                 error := None;
                 similarQuestions := similar;
                 validationStatus := determineStatus classification issues;
                 qualityIssues := issues |})
      end
  end.

(** classifyQuestion: the state after the call and what was observed.
    [rendered] is the state captured by the closure of
    storeClassificationResult, [prev] the state the updaters receive. *)
Definition classifyQuestion (svc : Services) (o : UseEnhancedClassificationOptions)
    (rendered : ClassificationState) (q : QuestionInput) (prev : ClassificationState)
    : ClassificationState * list Effect :=
  let st1 := start_loading prev in
  match classifyBody svc o q with
  | Ok (classification, st2) =>
      (st2, storeClassificationResult svc rendered classification)
  | Err e =>
      (fail_with e st1,
       [ConsoleError "Classification error:" e; ToastError "Failed to classify question"])
  end.

End Classification.

(** ** Whole-bank redundancy analysis (hook useSemanticAnalysis) *)
Module Semantic.

Record BankQuestion : Type := {
  id : string;
  text : string;
  topic : string;
  bloom_level : string;
  knowledge_dimension : string
}.

(** The field of [ClusterResult] the hook reads. *)
Record ClusterResult : Type := {
  cluster_members : list string;
  coherence : float
}.

Record SimilarPair : Type := {
  id1 : string;
  id2 : string;
  similarity : float
}.

Record RedundancyReport : Type := {
  duplicatesFound : nat;
  similarPairs : list SimilarPair;
  recommendations : list string
}.

Record SemanticAnalysisState : Type := {
  clusters : list ClusterResult;
  loading : bool;
  error : option string;
  redundancyReport : option RedundancyReport
}.

Record UseSemanticAnalysisOptions : Type := {
  similarityThreshold : option float;
  clusteringEnabled : option bool;
  autoDetectRedundancy : option bool;
  storeResults : option bool
}.

Definition get_similarityThreshold (o : UseSemanticAnalysisOptions) : float :=
  default 0.7%float (similarityThreshold o).
Definition get_clusteringEnabled (o : UseSemanticAnalysisOptions) : bool :=
  default true (clusteringEnabled o).
Definition get_storeResults (o : UseSemanticAnalysisOptions) : bool :=
  default true (storeResults o).

(** The semantic analyzer service; [Err] is a rejected promise. *)
Record Analyzer : Type := {
  calculateSimilarity : string -> string -> result float;
  analyzer_clusterQuestions : list BankQuestion -> result (list ClusterResult)
}.

Definition error_message (fallback : string) (e : Thrown) : string :=
  match e with
  | ErrorObject m => m
  | OtherValue => fallback
  end.

(** A [for] loop whose body may throw: the first [Err] ends it. *)
Fixpoint for_each {A S} (body : S -> A -> result S) (l : list A) (s : S) : result S :=
  match l with
  | [] => Ok s
  | a :: l' =>
      match body s a with
      | Ok s' => for_each body l' s'
      | Err e => Err e
      end
  end.

(** The accumulators of the redundancy loops. *)
Definition Acc : Type := (list SimilarPair * nat)%type.

(** The body of the inner loop for indices [i] and [j]. *)
Definition compare_pair (an : Analyzer) (threshold : float) (questions : list BankQuestion)
    (i : nat) (acc : Acc) (j : nat) : result Acc :=
  match questions !! i, questions !! j with
  | Some qi, Some qj =>
      match calculateSimilarity an (text qi) (text qj) with
      | Err e => Err e
      | Ok sim =>
          if JsNum.geb sim threshold
          then Ok (fst acc ++ [ {| id1 := id qi; id2 := id qj; similarity := sim |} ],
                   S (snd acc))
          else Ok acc
      end
  | _, _ => Err (ErrorObject "Cannot read properties of undefined")
  end.

(** [for (let j = i + 1; j < questions.length; j++)] *)
Definition inner_loop (an : Analyzer) (threshold : float) (questions : list BankQuestion)
    (acc : Acc) (i : nat) : result Acc :=
  for_each (compare_pair an threshold questions i)
           (seq (S i) (length questions - S i)) acc.

(** [for (let i = 0; i < questions.length; i++)] *)
Definition detectPairs (an : Analyzer) (threshold : float) (questions : list BankQuestion)
    : result Acc :=
  for_each (inner_loop an threshold questions) (seq 0 (length questions)) ([], 0%nat).

(** The hook's clusterQuestions: disabled gives no clusters, a failure is
    caught, recorded in the state and gives no clusters. *)
Definition clusterQuestions (an : Analyzer) (o : UseSemanticAnalysisOptions)
    (questions : list BankQuestion) (st : SemanticAnalysisState)
    : list ClusterResult * SemanticAnalysisState :=
  if get_clusteringEnabled o then
    match analyzer_clusterQuestions an questions with
    | Ok cs =>
        (cs, {| clusters := cs; loading := false; error := None;
                redundancyReport := redundancyReport st |})
    | Err e =>
        ([], {| clusters := clusters st; loading := false;
                error := Some (error_message "Clustering failed" e);
                redundancyReport := redundancyReport st |})
    end
  else ([], st).

Definition recommend (duplicates : nat) (cs : list ClusterResult) : list string :=
  (if (0 <? duplicates)%nat
   then ["Found " +:+ pretty duplicates +:+ " potentially redundant question pairs";
         "Review similar questions for consolidation opportunities"]
   else [])
  ++ (if (0 <? length cs)%nat then
        let low := filter (fun c => JsNum.ltb (coherence c) 0.6%float = true) cs in
        if (0 <? length low)%nat
        then [pretty (length low) +:+ " question clusters have low coherence"]
        else []
      else []).

(** analyzeQuestionBank, up to the state it leaves.  Storing the results
    afterwards catches its own errors and does not touch the state. *)
Definition analyzeQuestionBank (an : Analyzer) (o : UseSemanticAnalysisOptions)
    (questions : list BankQuestion) (st : SemanticAnalysisState) : SemanticAnalysisState :=
  let st1 := {| clusters := clusters st; loading := true; error := None;
                redundancyReport := redundancyReport st |} in
  let '(cs, st2) := clusterQuestions an o questions st1 in
  match detectPairs an (get_similarityThreshold o) questions with
  | Ok (redundancyPairs, found) =>
      {| clusters := clusters st2; loading := false; error := error st2;
         redundancyReport :=
           Some {| duplicatesFound := found;
                   similarPairs := redundancyPairs;
                   recommendations := recommend found cs |} |}
  | Err e =>
      {| clusters := clusters st2; loading := false;
         error := Some (error_message "Analysis failed" e);
         redundancyReport := redundancyReport st2 |}
  end.

(** The pairs a state reports as flagged. *)
Definition flaggedPairs (st : SemanticAnalysisState) : list SimilarPair :=
  match redundancyReport st with
  | Some r => similarPairs r
  | None => []
  end.

(** *** Comparing two runs of the loops *)

(** Two runs are related when both throw the same value or both end in
    related accumulators. *)
Definition related {S1 S2} (R : S1 -> S2 -> Prop) (r1 : result S1) (r2 : result S2) : Prop :=
  match r1, r2 with
  | Ok s1, Ok s2 => R s1 s2
  | Err e1, Err e2 => e1 = e2
  | _, _ => False
  end.

(** The pairs collected at the higher threshold [t2] are those collected at
    the lower one that reach [t2], in the same order, and each counter is the
    length of its list. *)
Definition shrinks (t2 : float) (acc1 acc2 : Acc) : Prop :=
  fst acc2 = filter (fun p => JsNum.geb (similarity p) t2 = true) (fst acc1)
  /\ snd acc1 = length (fst acc1)
  /\ snd acc2 = length (fst acc2).

End Semantic.

(** ** The TOS matrix (component TOSMatrix) *)
Module TOSMatrix.

(** The literal keys of [bloomLevels]. *)
Inductive BloomKey : Type :=
| remembering | understanding | applying | analyzing | evaluating | creating.

Global Instance BloomKey_eq_dec : EqDecision BloomKey.
Proof. solve_decision. Defined.

Record BloomLevel : Type := {
  key : BloomKey;
  label : string;
  level_difficulty : string
}.

Definition bloomLevels : list BloomLevel :=
  [ {| key := remembering; label := "Remembering"; level_difficulty := "Easy" |};
    {| key := understanding; label := "Understanding"; level_difficulty := "Easy" |};
    {| key := applying; label := "Applying"; level_difficulty := "Average" |};
    {| key := analyzing; label := "Analyzing"; level_difficulty := "Average" |};
    {| key := evaluating; label := "Evaluating"; level_difficulty := "Difficult" |};
    {| key := creating; label := "Creating"; level_difficulty := "Difficult" |} ].

(** A row of the distribution: per Bloom level the item numbers placed in
    that cell, and the row total kept with it. *)
Record TopicDistribution : Type := {
  td_remembering : list Z;
  td_understanding : list Z;
  td_applying : list Z;
  td_analyzing : list Z;
  td_evaluating : list Z;
  td_creating : list Z;
  td_total : Z
}.

(** [topic[level.key]] *)
Definition cell (k : BloomKey) (t : TopicDistribution) : list Z :=
  match k with
  | remembering => td_remembering t
  | understanding => td_understanding t
  | applying => td_applying t
  | analyzing => td_analyzing t
  | evaluating => td_evaluating t
  | creating => td_creating t
  end.

(** The fields of [TOSData] the component reads.  [distribution] is an
    object keyed by topic name, kept here in its enumeration order. *)
Record TOSData : Type := {
  subjectNo : string;
  course : string;
  examPeriod : string;
  schoolYear : string;
  totalItems : Z;
  distribution : list (string * TopicDistribution)
}.

(** [Object.values] *)
Definition object_values {K V} (o : list (K * V)) : list V := map snd o.

(** [acc[k] = v] on an object kept in enumeration order. *)
Fixpoint object_set {V} (k : BloomKey) (v : V) (o : list (BloomKey * V)) : list (BloomKey * V) :=
  match o with
  | [] => [(k, v)]
  | (k', v') :: o' =>
      if decide (k' = k) then (k, v) :: o' else (k', v') :: object_set k v o'
  end.

(** [start === end ? start.toString() : `${start}-${end}`] *)
Definition group_string (start end_ : Z) : string :=
  if (start =? end_)%Z then pretty start else pretty start +:+ "-" +:+ pretty end_.

(** Item numbers are taken as integers.  On safe integers (magnitude at
    most 2^53 - 1, [Number.isSafeInteger]) the engine's binary64 addition
    [end + 1] and the comparison [===] are exact and [toString] is the decimal
    numeral, so there the integer form below is what the code computes. *)
Definition safe_integer (x : Z) : Prop := (- (2 ^ 53 - 1) <= x <= 2 ^ 53 - 1)%Z.

(** The variables of the grouping loop: [groups], [start], [end]. *)
Definition LoopState : Type := (list string * Z * Z)%type.

(** One iteration of the grouping loop on [items[i]]. *)
Definition group_step (st : LoopState) (item : Z) : LoopState :=
  let '(groups, start, end_) := st in
  if (item =? end_ + 1)%Z
  then (groups, start, item)
  else (groups ++ [group_string start end_], item, item).

(** [groups.join(', ')] *)
Definition join (sep : string) (l : list string) : string := String.concat sep l.

Definition formatItemNumbers (items : list Z) : string :=
  match items with
  | [] => "-"
  | [x] => pretty x
  | x :: rest =>
      let '(groups, start, end_) := fold_left group_step rest ([], x, x) in
      "(" +:+ join ", " (groups ++ [group_string start end_]) +:+ ")"
  end.

(** The grouping loop on the numbers as the engine holds them, binary64,
    up to the groups it closes (each as its [start] and [end]):
    [items[i] === end + 1] is IEEE equality after an IEEE addition. *)
Definition group_step_binary64 (st : list (float * float) * float * float) (item : float)
    : list (float * float) * float * float :=
  let '(groups, start, end_) := st in
  if PrimFloat.eqb item (end_ + 1)%float
  then (groups, start, item)
  else (groups ++ [(start, end_)], item, item).

Definition groups_binary64 (items : list float) : list (float * float) :=
  match items with
  | [] => []
  | x :: rest =>
      let '(groups, start, end_) := fold_left group_step_binary64 rest ([], x, x) in
      groups ++ [(start, end_)]
  end.

(** [bloomTotals]: per level, the number of items over all topics. *)
Definition levelTotal (data : TOSData) (k : BloomKey) : nat :=
  fold_left (fun sum topic => (sum + length (cell k topic))%nat)
            (object_values (distribution data)) 0%nat.

Definition bloomTotals (data : TOSData) : list (BloomKey * nat) :=
  fold_left (fun acc level => object_set (key level) (levelTotal data (key level)) acc)
            bloomLevels [].

Definition grandTotal (data : TOSData) : nat :=
  fold_left (fun sum count => (sum + count)%nat) (object_values (bloomTotals data)) 0%nat.

End TOSMatrix.

(** ** The test preview (page TestPreview) *)
Module TestPreview.

Record TestItem : Type := {
  question_text : option string;
  question : option string;
  question_type : option string;
  type_ : option string;
  correct_answer : option string;
  correctAnswer : option string;
  points : option float
}.

(** The fetched row; [items] is [None] when the column is not an array. *)
Record GeneratedTest : Type := {
  title : option string;
  test_items : option (list TestItem)
}.

(** [Array.isArray(test.items) ? test.items : []] *)
Definition items_of (test : GeneratedTest) : list TestItem :=
  default [] (test_items test).

(** [item.points || 1] *)
Definition points_or_one (item : TestItem) : float :=
  match points item with
  | Some p => if JsNum.truthy p then p else 1%float
  | None => 1%float
  end.

Definition totalPoints (items : list TestItem) : float :=
  fold_left (fun sum item => (sum + points_or_one item)%float) items 0%float.

(** [a || b] on optional strings: the empty string is falsy. *)
Definition str_or (a : option string) (b : string) : string :=
  match a with
  | Some s => if bool_decide (s = "") then b else s
  | None => b
  end.

(** What [{item.points && item.points > 1 && (...)}] puts after the
    answer: nothing for missing points and for points up to one, the points
    label above one, and the bare number for the falsy numbers 0 and NaN,
    which the expression evaluates to and the page shows as text. *)
Inductive PointsNote : Type :=
| NoNote
| BareNumber (p : float)
| PointsLabel (p : float).

(** One line of the answer key: number, answer, and the note on points. *)
Record KeyEntry : Type := {
  ke_number : nat;
  ke_answer : string;
  ke_points : PointsNote
}.

Definition key_entry (index : nat) (item : TestItem) : KeyEntry :=
  {| ke_number := index + 1;
     ke_answer := str_or (correct_answer item) (str_or (correctAnswer item) "N/A");
     ke_points := match points item with
                  | Some p =>
                      if JsNum.truthy p
                      then (if JsNum.ltb 1%float p then PointsLabel p else NoNote)
                      else BareNumber p
                  | None => NoNote
                  end |}.

(** The blocks of the rendered page. *)
Inductive Block : Type :=
| Toolbar
| Header (itemCount : nat) (total : float)
| Instructions
| Questions (items : list TestItem)
| KeySeparator
| AnswerKey (entries : list KeyEntry)
| Footer.

(** A rendered element with its [print:hidden] class. *)
Record Element : Type := {
  print_hidden : bool;
  block : Block
}.

Definition render (test : GeneratedTest) (showAnswerKey : bool) : list Element :=
  let items := items_of test in
  [ {| print_hidden := true; block := Toolbar |};
    {| print_hidden := false; block := Header (length items) (totalPoints items) |};
    {| print_hidden := false; block := Instructions |};
    {| print_hidden := false; block := Questions items |} ]
  ++ (if showAnswerKey
      then [ {| print_hidden := true; block := KeySeparator |};
             {| print_hidden := true; block := AnswerKey (imap key_entry items) |} ]
      else [])
  ++ [ {| print_hidden := false; block := Footer |} ].

(** What [window.print()] puts on paper: the elements not hidden for print. *)
Definition printed (page : list Element) : list Block :=
  map block (filter (fun e => print_hidden e = false) page).

(** The component state, the scheduled print callbacks and the hard copies
    produced so far. *)
Record UI : Type := {
  showAnswerKey : bool;
  timers : nat;
  printouts : list (list Block)
}.

(** The toggle button: [setShowAnswerKey(!showAnswerKey)]. *)
Definition toggleAnswerKey (ui : UI) : UI :=
  {| showAnswerKey := negb (showAnswerKey ui); timers := timers ui; printouts := printouts ui |}.

(** handlePrint: hide the key and schedule the callback. *)
Definition handlePrint (ui : UI) : UI :=
  {| showAnswerKey := false; timers := S (timers ui); printouts := printouts ui |}.

(** The callback given to setTimeout: print, then [setShowAnswerKey(true)]. *)
Definition printCallback (test : GeneratedTest) (ui : UI) : UI :=
  match timers ui with
  | O => ui
  | S n =>
      {| showAnswerKey := true;
         timers := n;
         printouts := printouts ui ++ [printed (render test (showAnswerKey ui))] |}
  end.

Inductive Event : Type := ClickToggle | ClickPrint | TimerFires.

Definition step (test : GeneratedTest) (ui : UI) (ev : Event) : UI :=
  match ev with
  | ClickToggle => toggleAnswerKey ui
  | ClickPrint => handlePrint ui
  | TimerFires => printCallback test ui
  end.

Definition run (test : GeneratedTest) (evs : list Event) (ui : UI) : UI :=
  fold_left (step test) evs ui.

(** The whole print operation with nothing in between: the click and the
    timer. *)
Definition printOperation (test : GeneratedTest) (ui : UI) : UI :=
  run test [ClickPrint; TimerFires] ui.

Definition is_answer_key (b : Block) : bool :=
  match b with
  | AnswerKey _ => true
  | _ => false
  end.

End TestPreview.

(** ** Notions the properties are stated with *)
Module Spec.
Import TOSMatrix.

(** A run [a, a+1, ..., b] of consecutive ascending numbers, kept as its
    two ends. *)
Definition Run : Type := (Z * Z)%type.

(** The numbers of a run, in order. *)
Definition expand (r : Run) : list Z := seqZ (fst r) (snd r - fst r + 1).

(** The display form of a group: a run with [a < b] as 'a-b', an isolated
    number as itself. *)
Definition render (r : Run) : string :=
  if (fst r <? snd r)%Z then pretty (fst r) +:+ "-" +:+ pretty (snd r) else pretty (fst r).

(** No run is continued by the run that follows it. *)
Fixpoint separated (rs : list Run) : Prop :=
  match rs with
  | r :: ((r' :: _) as rest) => fst r' <> (snd r + 1)%Z /\ separated rest
  | _ => True
  end.

(** [rs] are the maximal runs of [items]: every run is non-empty, none can
    be extended, and together they cover [items] once, in order. *)
Definition maximal_runs (items : list Z) (rs : list Run) : Prop :=
  Forall (fun r => (fst r <= snd r)%Z) rs
  /\ separated rs
  /\ concat (map expand rs) = items.

(** The runs read off from left to right, starting inside the run
    [start..end_]: the list view of the grouping loop. *)
Fixpoint runs_from (start end_ : Z) (rest : list Z) : list Run :=
  match rest with
  | [] => [(start, end_)]
  | x :: rest' =>
      if (x =? end_ + 1)%Z
      then runs_from start x rest'
      else (start, end_) :: runs_from x x rest'
  end.

(** The item numbers of all cells, topic by topic and level by level. *)
Definition all_item_numbers (data : TOSData) : list Z :=
  concat (map (fun topic => concat (map (fun level => cell (key level) topic) bloomLevels))
              (object_values (distribution data))).

(** Modelled from the spec: the TOS builder and its save-time validation
    are not among the sources.  The specification's invariant for a valid
    blueprint is that the item-number blocks of all cells, taken together,
    are exactly 1..total_items, with no gaps and no overlaps. *)
Definition valid_tos (data : TOSData) : Prop :=
  (0 <= totalItems data)%Z
  /\ all_item_numbers data ≡ₚ seqZ 1 (totalItems data).

End Spec.

(** ** Sample data used by the concrete runs below *)
Module Samples.
Import Validation.

Definition q_sample : Question :=
  {| question_text := "Define osmosis.";
     bloom_level := "remembering";
     knowledge_dimension := "factual";
     difficulty := "easy";
     classification_confidence := 0.55%float;
     validation_status := "pending";
     validated_by := None;
     validation_timestamp := None;
     needs_review := false |}.

Definition vr_sample : ValidationResult :=
  {| validated_classification :=
       {| vc_bloom_level := "understanding";
          vc_knowledge_dimension := "conceptual";
          vc_difficulty := "average" |};
     validation_confidence := 0.9%float;
     notes := Some "explains, does not recall";
     changes_made := ["bloom_level"] |}.

Definition request_for (rid : string) (assignee : option string) : ReviewRequest :=
  {| rr_id := rid;
     rr_question_id := "q1";
     rr_request_type := peer_review;
     rr_requested_by := "carol";
     rr_assigned_to := assignee;
     rr_status := pending |}.

(** One question, one pending request assigned to alice and one to bob. *)
Definition store_sample : Store :=
  {| questions := {[ "q1" := q_sample ]};
     classification_validations := [];
     review_requests := [request_for "r1" (Some "alice"); request_for "r2" (Some "bob")] |}.

Definition env_alice : Env := {| auth_user := Some "alice"; now := "2025-01-15T08:00:00.000Z" |}.
Definition env_alice_later : Env := {| auth_user := Some "alice"; now := "2025-01-15T09:30:00.000Z" |}.

(** A classifier answer with low confidence and acceptable quality. *)
Definition c_lowconf : Classification.MLClassificationResult :=
  {| Classification.bloom_level := "applying";
     Classification.knowledge_dimension := "procedural";
     Classification.difficulty := "average";
     Classification.confidence := 0.55%float;
     Classification.quality_score := 0.8%float;
     Classification.readability_score := 9%float;
     Classification.needs_review := false |}.

(** A confident, good-quality classifier answer. *)
Definition c_good : Classification.MLClassificationResult :=
  {| Classification.bloom_level := "analyzing";
     Classification.knowledge_dimension := "procedural";
     Classification.difficulty := "average";
     Classification.confidence := 0.95%float;
     Classification.quality_score := 0.9%float;
     Classification.readability_score := 8%float;
     Classification.needs_review := false |}.

Definition qi_sample : Classification.QuestionInput :=
  {| Classification.text := "Compute the area of a circle of radius 3.";
     Classification.qi_type := "essay";
     Classification.topic := Some "geometry" |}.

Definition opts_default : Classification.UseEnhancedClassificationOptions :=
  {| Classification.autoClassify := None;
     Classification.checkSimilarity := None;
     Classification.similarityThreshold := None;
     Classification.qualityThreshold := None |}.

(** Services that all succeed and answer [c]. *)
Definition svc_answering (c : Classification.MLClassificationResult) : Classification.Services :=
  {| Classification.ml_classifyQuestion := fun _ => Ok c;
     Classification.findSimilarQuestions := fun _ _ => Ok [];
     Classification.select_question_text := fun _ => None;
     Classification.insert_quality_metric := fun _ => Ok tt;
     Classification.insert_similarities := fun _ => Ok tt |}.

(** The classifier and the similarity search succeed; the metrics table
    refuses the insert. *)
Definition svc_store_down : Classification.Services :=
  {| Classification.ml_classifyQuestion := fun _ => Ok c_good;
     Classification.findSimilarQuestions := fun _ _ => Ok [];
     Classification.select_question_text := fun _ => None;
     Classification.insert_quality_metric := fun _ => Err (ErrorObject "insert failed");
     Classification.insert_similarities := fun _ => Ok tt |}.

(** The classifier itself is unreachable. *)
Definition svc_ml_down : Classification.Services :=
  {| Classification.ml_classifyQuestion := fun _ => Err (ErrorObject "model unavailable");
     Classification.findSimilarQuestions := fun _ _ => Ok [];
     Classification.select_question_text := fun _ => None;
     Classification.insert_quality_metric := fun _ => Ok tt;
     Classification.insert_similarities := fun _ => Ok tt |}.

(** The state of the hook before the first classification. *)
Definition cs_initial : Classification.ClassificationState :=
  {| Classification.result_ := None;
     Classification.loading := false;
     Classification.error := None;
     Classification.similarQuestions := [];
     Classification.validationStatus := Classification.vs_pending;
     Classification.qualityIssues := [] |}.

(** The state of the hook after an earlier, successful classification. *)
Definition cs_classified : Classification.ClassificationState :=
  {| Classification.result_ := Some c_lowconf;
     Classification.loading := false;
     Classification.error := None;
     Classification.similarQuestions := [];
     Classification.validationStatus := Classification.vs_needs_review;
     Classification.qualityIssues := ["Low classification confidence - needs human review"] |}.

(** A small bank: two questions with the same text and a third one. *)
Definition bank_sample : list Semantic.BankQuestion :=
  [ {| Semantic.id := "q1"; Semantic.text := "What is photosynthesis?";
       Semantic.topic := "biology"; Semantic.bloom_level := "remembering";
       Semantic.knowledge_dimension := "factual" |};
    {| Semantic.id := "q2"; Semantic.text := "What is photosynthesis?";
       Semantic.topic := "biology"; Semantic.bloom_level := "remembering";
       Semantic.knowledge_dimension := "factual" |};
    {| Semantic.id := "q3"; Semantic.text := "Explain photosynthesis.";
       Semantic.topic := "biology"; Semantic.bloom_level := "understanding";
       Semantic.knowledge_dimension := "conceptual" |} ].

(** Equal texts are fully similar, different texts 0.75 similar. *)
Definition analyzer_sample : Semantic.Analyzer :=
  {| Semantic.calculateSimilarity :=
       fun a b => Ok (if bool_decide (a = b) then 1%float else 0.75%float);
     Semantic.analyzer_clusterQuestions := fun _ => Ok [] |}.

Definition opts_threshold (t : float) : Semantic.UseSemanticAnalysisOptions :=
  {| Semantic.similarityThreshold := Some t;
     Semantic.clusteringEnabled := None;
     Semantic.autoDetectRedundancy := None;
     Semantic.storeResults := None |}.

Definition sa_initial : Semantic.SemanticAnalysisState :=
  {| Semantic.clusters := [];
     Semantic.loading := false;
     Semantic.error := None;
     Semantic.redundancyReport := None |}.

(** A blueprint of ten items over two topics. *)
Definition tos_sample : TOSMatrix.TOSData :=
  {| TOSMatrix.subjectNo := "CS 101";
     TOSMatrix.course := "BSCS";
     TOSMatrix.examPeriod := "Midterm";
     TOSMatrix.schoolYear := "2024-2025";
     TOSMatrix.totalItems := 10;
     TOSMatrix.distribution :=
       [ ("Algorithms",
          {| TOSMatrix.td_remembering := [1%Z];
             TOSMatrix.td_understanding := [2%Z];
             TOSMatrix.td_applying := [3%Z];
             TOSMatrix.td_analyzing := [4%Z];
             TOSMatrix.td_evaluating := [5%Z];
             TOSMatrix.td_creating := [];
             TOSMatrix.td_total := 5 |});
         ("Data structures",
          {| TOSMatrix.td_remembering := [6%Z];
             TOSMatrix.td_understanding := [];
             TOSMatrix.td_applying := [7%Z; 8%Z];
             TOSMatrix.td_analyzing := [9%Z];
             TOSMatrix.td_evaluating := [];
             TOSMatrix.td_creating := [10%Z];
             TOSMatrix.td_total := 5 |}) ] |}.

Definition item_with_points (p : option float) : TestPreview.TestItem :=
  {| TestPreview.question_text := Some "State the definition of a stack.";
     TestPreview.question := None;
     TestPreview.question_type := Some "essay";
     TestPreview.type_ := None;
     TestPreview.correct_answer := Some "LIFO container";
     TestPreview.correctAnswer := None;
     TestPreview.points := p |}.

Definition test_sample : TestPreview.GeneratedTest :=
  {| TestPreview.title := Some "Midterm";
     TestPreview.test_items :=
       Some [item_with_points (Some 2%float); item_with_points (Some 5%float)] |}.

(** The preview with the answer key hidden by the teacher. *)
Definition ui_key_hidden : TestPreview.UI :=
  {| TestPreview.showAnswerKey := false; TestPreview.timers := 0; TestPreview.printouts := [] |}.

(** The preview as it first renders: answer key shown. *)
Definition ui_key_shown : TestPreview.UI :=
  {| TestPreview.showAnswerKey := true; TestPreview.timers := 0; TestPreview.printouts := [] |}.

End Samples.

(** ** The validation workflow: queries, statistics and sequences of actions *)
Module ValidationQueries.
Import Validation.

Global Instance RequestStatus_eq_dec : EqDecision RequestStatus.
Proof. solve_decision. Defined.

(** [x || 0] on a number. *)
Definition or_zero (x : float) : float := if JsNum.truthy x then x else 0%float.

(** A JavaScript count as a number. *)
Definition float_of_nat (n : nat) : float :=
  PrimFloat.of_uint63 (Uint63.of_Z (Z.of_nat n)).

(** The interface [ValidationRequest]. *)
Record ValidationRequest : Type := {
  req_id : string;
  req_question_id : string;
  req_question_text : string;
  req_original_classification : OriginalClassification;
  req_request_type : RequestType;
  req_requested_by : string;
  req_status : RequestStatus;
  req_created_at : string
}.

Record ValidationStats : Type := {
  totalValidations : nat;
  accuracyRate : float;
  avgConfidenceImprovement : float
}.

(** The interface [ValidationState]. *)
Record ValidationState : Type := {
  pendingValidations : list ValidationRequest;
  completedValidations : list ValidationRecord;
  loading : bool;
  error : option string;
  stats : ValidationStats
}.

(** The state the hook starts with. *)
Definition initialState : ValidationState :=
  {| pendingValidations := [];
     completedValidations := [];
     loading := true;
     error := None;
     stats := {| totalValidations := 0;
                 accuracyRate := 0%float;
                 avgConfidenceImprovement := 0%float |} |}.

(** [original?.confidence || 0]: the empty payload has no confidence. *)
Definition original_confidence (v : ValidationRecord) : float :=
  match vr_original_classification v with
  | Some o => or_zero (oc_confidence o)
  | None => 0%float
  end.

(** The rows selected by [.eq('validator_id', user.id)]. *)
Definition validationsOf (uid : string) (s : Store) : list ValidationRecord :=
  filter (fun v => vr_validator_id v = uid) (classification_validations s).

(** The statistics loadValidationStats computes from the validator's rows. *)
Definition computeStats (validations : list ValidationRecord) : ValidationStats :=
  let total := length validations in
  {| totalValidations := total;
     accuracyRate := if (0 <? total)%nat then 0.85%float else 0%float;
     avgConfidenceImprovement :=
       or_zero
         (fold_left
            (fun sum v =>
               (sum + (vr_validation_confidence v - original_confidence v))%float)
            validations 0%float
          / float_of_nat total)%float |}.

(** loadValidationStats: without a signed-in user the state is left as it
    is.  Reading the table is taken to succeed. *)
Definition loadValidationStats (env : Env) (s : Store) (st : ValidationState) : ValidationState :=
  match auth_user env with
  | None => st
  | Some uid =>
      {| pendingValidations := pendingValidations st;
         completedValidations := completedValidations st;
         loading := loading st;
         error := error st;
         stats := computeStats (validationsOf uid s) |}
  end.

Section Ordered.

(** The [created_at] column, which the row records above do not carry, and
    the store's [order('created_at', { ascending: false })] on either table. *)
Variable created_at : ReviewRequest -> string.
Variable newest_first : list ReviewRequest -> list ReviewRequest.
Variable newest_first_validations : list ValidationRecord -> list ValidationRecord.

(** The embedded [questions (...)] row of a request and the defaults applied
    to it. *)
Definition to_request (s : Store) (r : ReviewRequest) : ValidationRequest :=
  let q := questions s !! rr_question_id r in
  {| req_id := rr_id r;
     req_question_id := rr_question_id r;
     req_question_text := default "" (question_text <$> q);
     req_original_classification :=
       {| oc_bloom_level := default "" (bloom_level <$> q);
          oc_knowledge_dimension := default "" (knowledge_dimension <$> q);
          oc_difficulty := default "" (difficulty <$> q);
          oc_confidence := default 0%float (or_zero <$> (classification_confidence <$> q)) |};
     req_request_type := rr_request_type r;
     req_requested_by := rr_requested_by r;
     req_status := rr_status r;
     req_created_at := created_at r |}.

(** The rows selected by [.eq('assigned_to', user.id).eq('status', 'pending')]. *)
Definition pendingRowsOf (uid : string) (s : Store) : list ReviewRequest :=
  filter (fun r => rr_assigned_to r = Some uid /\ rr_status r = pending) (review_requests s).

(** loadValidationRequests: without a signed-in user the state is left as it
    is.  Reading the tables is taken to succeed. *)
Definition loadValidationRequests (env : Env) (s : Store) (st : ValidationState) : ValidationState :=
  match auth_user env with
  | None => st
  | Some uid =>
      {| pendingValidations := map (to_request s) (newest_first (pendingRowsOf uid s));
         completedValidations := take 20 (newest_first_validations (validationsOf uid s));
         loading := false;
         error := error st;
         stats := stats st |}
  end.

End Ordered.

(** *** Sequences of actions *)

Inductive Action : Type :=
| Submit (questionId : string) (validationResult : ValidationResult)
| Reject (questionId reason : string)
| Request (newId questionId : string) (requestType : RequestType) (assignedTo : option string).

Definition perform (a : Action) : Db unit :=
  match a with
  | Submit questionId validationResult => submitValidation questionId validationResult
  | Reject questionId reason => rejectValidation questionId reason
  | Request newId questionId requestType assignedTo =>
      requestValidation newId questionId requestType assignedTo
  end.

(** An action run against the store.  Each of the three operations throws,
    if at all, before its first write, so a failed action leaves the store as
    it was. *)
Definition attempt (env : Env) (a : Action) (s : Store) : Store :=
  match exec (perform a) env s with
  | Ok s' => s'
  | Err _ => s
  end.

(** Actions in sequence, each with the user and clock it ran under. *)
Definition run_actions (l : list (Env * Action)) (s : Store) : Store :=
  fold_left (fun s ea => attempt (fst ea) (snd ea) s) l s.

End ValidationQueries.

(** ** Classification: derived flags, validation and rejection
       (hook useEnhancedClassification) *)
Module ClassificationView.
Import Classification.

(** The flags the hook returns next to its state. *)
Definition isHighQuality (o : UseEnhancedClassificationOptions) (st : ClassificationState) : bool :=
  match result_ st with
  | Some c => JsNum.geb (quality_score c) (get_qualityThreshold o)
  | None => false
  end.

Definition isHighConfidence (st : ClassificationState) : bool :=
  match result_ st with
  | Some c => JsNum.geb (confidence c) 0.8%float
  | None => false
  end.

Definition hasIssues (st : ClassificationState) : bool :=
  (0 <? length (qualityIssues st))%nat.

(** [state.result?.needs_review || state.qualityIssues.length > 0] *)
Definition needsReview (st : ClassificationState) : bool :=
  match result_ st with
  | Some c => needs_review c
  | None => false
  end
  || hasIssues st.

(** [Partial<MLClassificationResult>]: the fields a reviewer supplies. *)
Record PartialResult : Type := {
  p_bloom_level : option string;
  p_knowledge_dimension : option string;
  p_difficulty : option string;
  p_confidence : option float;
  p_quality_score : option float;
  p_readability_score : option float;
  p_needs_review : option bool
}.

(** [{ ...result, ...validatedResult }] *)
Definition merge (c : MLClassificationResult) (p : PartialResult) : MLClassificationResult :=
  {| bloom_level := default (bloom_level c) (p_bloom_level p);
     knowledge_dimension := default (knowledge_dimension c) (p_knowledge_dimension p);
     difficulty := default (difficulty c) (p_difficulty p);
     confidence := default (confidence c) (p_confidence p);
     quality_score := default (quality_score c) (p_quality_score p);
     readability_score := default (readability_score c) (p_readability_score p);
     needs_review := default (needs_review c) (p_needs_review p) |}.

(** What validateClassification does besides updating the state. *)
Inductive ValidateEffect : Type :=
| InsertedValidation (question_id : string) (original : MLClassificationResult)
    (validated : PartialResult) (validator_id : string) (validation_confidence : float)
    (notes : option string)
| ToastSuccess (message : string)
| ToastFailure (message : string)
| LoggedError (label : string) (e : Thrown).

(** validateClassification, called on the state it was rendered with.
    [auth] is the signed-in user, [question] the hook's question argument. *)
Definition validateClassification (auth : option string) (question : option QuestionInput)
    (validatedResult : PartialResult) (notes : option string) (st : ClassificationState)
    : ClassificationState * list ValidateEffect :=
  match result_ st, question with
  | Some c, Some _ =>
      match auth with
      | None =>
          (st, [LoggedError "Validation error:" (ErrorObject "User not authenticated");
                ToastFailure "Failed to validate classification"])
      | Some uid =>
          ({| result_ := Some (merge c validatedResult);
              loading := loading st;
              error := error st;
              similarQuestions := similarQuestions st;
              validationStatus := vs_validated;
              qualityIssues := qualityIssues st |},
           [InsertedValidation "temp" c validatedResult uid 0.9%float notes;
            ToastSuccess "Classification validated successfully"])
      end
  | _, _ => (st, [])
  end.

(** rejectClassification *)
Definition rejectClassification (reason : string) (st : ClassificationState) : ClassificationState :=
  {| result_ := result_ st;
     loading := loading st;
     error := error st;
     similarQuestions := similarQuestions st;
     validationStatus := vs_rejected;
     qualityIssues := qualityIssues st |}.

End ClassificationView.

(** ** Redundancy of one new question and the expected pairs of the bank
       (hook useSemanticAnalysis) *)
Module SemanticQueries.
Import Semantic.

(** An entry of the analyzer's redundancy answer. *)
Record SimilarText : Type := {
  st_text : string;
  st_similarity : float
}.

(** The answer of semanticAnalyzer.detectRedundancy. *)
Record RedundancyResult : Type := {
  isRedundant : bool;
  similarTexts : list SimilarText;
  recommendation : string
}.

Record ExistingQuestion : Type := {
  eq_id : string;
  eq_text : string
}.

(** An entry of the hook's answer: the text with the id it was mapped to. *)
Record SimilarQuestionId : Type := {
  sqi_id : string;
  sqi_text : string;
  sqi_similarity : float
}.

Record RedundancyAnswer : Type := {
  ans_isRedundant : bool;
  ans_similarQuestions : list SimilarQuestionId;
  ans_recommendation : string
}.

(** [existingQuestions.find(q => q.text === text)] *)
Definition find_by_text (existingQuestions : list ExistingQuestion) (t : string)
    : option ExistingQuestion :=
  List.find (fun q => bool_decide (eq_text q = t)) existingQuestions.

(** [question?.id || ''] *)
Definition id_or_empty (question : option ExistingQuestion) : string :=
  match question with
  | Some q => eq_id q
  | None => ""
  end.

(** The hook's detectRedundancy; [service] is semanticAnalyzer.detectRedundancy,
    [Err] a rejected promise. *)
Definition detectRedundancy
    (service : string -> list string -> float -> result RedundancyResult)
    (o : UseSemanticAnalysisOptions) (newQuestionText : string)
    (existingQuestions : list ExistingQuestion) : RedundancyAnswer :=
  match service newQuestionText (map eq_text existingQuestions) (get_similarityThreshold o) with
  | Ok redundancyResult =>
      {| ans_isRedundant := isRedundant redundancyResult;
         ans_similarQuestions :=
           map (fun similar =>
                  {| sqi_id := id_or_empty (find_by_text existingQuestions (st_text similar));
                     sqi_text := st_text similar;
                     sqi_similarity := st_similarity similar |})
               (similarTexts redundancyResult);
         ans_recommendation := recommendation redundancyResult |}
  | Err _ =>
      {| ans_isRedundant := false;
         ans_similarQuestions := [];
         ans_recommendation := "Unable to check for redundancy" |}
  end.

(** The pair the loops of analyzeQuestionBank push for the indices [i] and
    [j], if any: used to state what the loops collect. *)
Definition pair_at (an : Analyzer) (threshold : float) (questions : list BankQuestion)
    (i j : nat) : option SimilarPair :=
  match questions !! i, questions !! j with
  | Some qi, Some qj =>
      match calculateSimilarity an (text qi) (text qj) with
      | Ok sim =>
          if JsNum.geb sim threshold
          then Some {| id1 := id qi; id2 := id qj; similarity := sim |}
          else None
      | Err _ => None
      end
  | _, _ => None
  end.

End SemanticQueries.

(** ** The TOS matrix: summary cards and row totals (component TOSMatrix) *)
Module TOSSummary.
Import TOSMatrix.

(** [bloomTotals.remembering]: reading a key of the totals object;
    [None] is [undefined]. *)
Fixpoint object_get {V} (k : BloomKey) (o : list (BloomKey * V)) : option V :=
  match o with
  | [] => None
  | (k', v) :: o' => if decide (k' = k) then Some v else object_get k o'
  end.

(** The sum of two level totals as a summary card shows it; with a missing
    key the sum would not be a number. *)
Definition card (data : TOSData) (k1 k2 : BloomKey) : option nat :=
  match object_get k1 (bloomTotals data), object_get k2 (bloomTotals data) with
  | Some a, Some b => Some (a + b)%nat
  | _, _ => None
  end.

Definition easyItems (data : TOSData) : option nat := card data remembering understanding.
Definition averageItems (data : TOSData) : option nat := card data applying analyzing.
Definition difficultItems (data : TOSData) : option nat := card data evaluating creating.

(** The six counts a topic row shows, [topicData[level.key].length] per
    level, and the stored [topicData.total] shown in its last column. *)
Definition rowCounts (t : TopicDistribution) : list nat :=
  map (fun level => length (cell (key level) t)) bloomLevels.

Definition rowTotal (t : TopicDistribution) : Z := td_total t.

End TOSSummary.

(** ** The test preview: grouping, matching columns (page TestPreview) *)
Module TestPreviewGrouping.
Import TestPreview.

(** [item.question_type || item.type || 'Multiple Choice'] *)
Definition type_of (item : TestItem) : string :=
  str_or (question_type item) (str_or (type_ item) "Multiple Choice").

Section Grouping.

(** The property names an empty object literal already answers to through
    its prototype ([constructor], [toString], ...): reading one of them from
    the accumulator gives a truthy value that is no array. *)
Variable inherited : string -> bool.

(** The callback of the [reduce] that builds [questionsByType]. *)
Definition group_item (acc : gmap string (list TestItem)) (item : TestItem)
    : result (gmap string (list TestItem)) :=
  let type := type_of item in
  match acc !! type with
  | Some group => Ok (<[type := group ++ [item]]> acc)
  | None =>
      if inherited type
      then Err (ErrorObject "acc[type].push is not a function")
      else Ok (<[type := [item]]> acc)
  end.

Definition questionsByType (items : list TestItem) : result (gmap string (list TestItem)) :=
  Semantic.for_each group_item items ∅.

End Grouping.

(** The group of a type after the remaining items have been added. *)
Definition grown (acc : gmap string (list TestItem)) (items : list TestItem) (ty : string)
    : option (list TestItem) :=
  match acc !! ty with
  | Some group => Some (group ++ filter (fun item => type_of item = ty) items)
  | None =>
      match filter (fun item => type_of item = ty) items with
      | [] => None
      | group => Some group
      end
  end.

Global Instance Event_eq_dec : EqDecision Event.
Proof. solve_decision. Defined.

(** How many times the Print button is clicked in a sequence of events. *)
Definition clicks (evs : list Event) : nat :=
  length (filter (fun ev => ev = ClickPrint) evs).

(** [Math.ceil(n / 2)] for a length [n]. *)
Definition ceil_half (n : nat) : nat := (n + 1) / 2.

(** The two columns of a matching item: the entries of its choices cut at
    [Math.ceil(n / 2)]. *)
Definition columnA {A} (entries : list A) : list A := take (ceil_half (length entries)) entries.
Definition columnB {A} (entries : list A) : list A := drop (ceil_half (length entries)) entries.

End TestPreviewGrouping.

(** ** The generated test and its three parts (component GeneratedTest) *)
Module GeneratedTest.

Inductive Difficulty : Type := Easy | Average | Difficult.

Global Instance Difficulty_eq_dec : EqDecision Difficulty.
Proof. solve_decision. Defined.

Inductive QuestionType : Type := multiple_choice | true_false | essay | fill_blank.

(** The interface [TestQuestion]. *)
Record TestQuestion : Type := {
  id : Z;
  topicName : string;
  bloomLevel : string;
  difficulty : Difficulty;
  type : QuestionType;
  question : string;
  options : option (list string);
  correctAnswer : string;
  points : float
}.

Definition easyQuestions (testQuestions : list TestQuestion) : list TestQuestion :=
  filter (fun q => difficulty q = Easy) testQuestions.
Definition averageQuestions (testQuestions : list TestQuestion) : list TestQuestion :=
  filter (fun q => difficulty q = Average) testQuestions.
Definition difficultQuestions (testQuestions : list TestQuestion) : list TestQuestion :=
  filter (fun q => difficulty q = Difficult) testQuestions.

(** The parts of the document: a part is rendered only when it has
    questions. *)
Definition parts (testQuestions : list TestQuestion) : list (string * list TestQuestion) :=
  (if (0 <? length (easyQuestions testQuestions))%nat
   then [("PART I - EASY QUESTIONS", easyQuestions testQuestions)] else [])
  ++ (if (0 <? length (averageQuestions testQuestions))%nat
      then [("PART II - AVERAGE QUESTIONS", averageQuestions testQuestions)] else [])
  ++ (if (0 <? length (difficultQuestions testQuestions))%nat
      then [("PART III - DIFFICULT QUESTIONS", difficultQuestions testQuestions)] else []).

End GeneratedTest.

(** ** More sample data *)
Module MoreSamples.
Import Samples.

(** The sample store after alice's submission, and after her rejection. *)
Definition submitted_store : Validation.Store :=
  match Validation.exec (Validation.submitValidation "q1" vr_sample) env_alice store_sample with
  | Ok s => s
  | Err _ => store_sample
  end.

Definition rejected_store : Validation.Store :=
  match Validation.exec (Validation.rejectValidation "q1" "ambiguous stem")
          env_alice store_sample with
  | Ok s => s
  | Err _ => store_sample
  end.

Definition env_bob : Validation.Env :=
  {| Validation.auth_user := Some "bob"; Validation.now := "2025-01-16T10:00:00.000Z" |}.

(** Rows that all carry the same creation time keep their order. *)
Definition created_at_sample (r : Validation.ReviewRequest) : string :=
  "2025-01-10T00:00:00.000Z".
Definition keep_order {A} (l : list A) : list A := l.

(** A pending request assigned to alice for another question, and the
    sample store with that request added, before and after alice's submission. *)
Definition request_q9 : Validation.ReviewRequest :=
  {| Validation.rr_id := "r9";
     Validation.rr_question_id := "q9";
     Validation.rr_request_type := Validation.expert_review;
     Validation.rr_requested_by := "carol";
     Validation.rr_assigned_to := Some "alice";
     Validation.rr_status := Validation.pending |}.

Definition store_queue : Validation.Store :=
  {| Validation.questions := Validation.questions store_sample;
     Validation.classification_validations := [];
     Validation.review_requests := Validation.review_requests store_sample ++ [request_q9] |}.

Definition submitted_queue : Validation.Store :=
  match Validation.exec (Validation.submitValidation "q1" vr_sample) env_alice store_queue with
  | Ok s => s
  | Err _ => store_queue
  end.

(** The hook with the similarity check switched off. *)
Definition opts_no_similarity : Classification.UseEnhancedClassificationOptions :=
  {| Classification.autoClassify := None;
     Classification.checkSimilarity := Some false;
     Classification.similarityThreshold := None;
     Classification.qualityThreshold := None |}.

(** The classifier answers; the similarity search is down. *)
Definition svc_search_down : Classification.Services :=
  {| Classification.ml_classifyQuestion := fun _ => Ok c_good;
     Classification.findSimilarQuestions := fun _ _ => Err (ErrorObject "search unavailable");
     Classification.select_question_text := fun _ => None;
     Classification.insert_quality_metric := fun _ => Ok tt;
     Classification.insert_similarities := fun _ => Ok tt |}.

(** A state rendered with one similar question from an earlier run. *)
Definition cs_with_similar : Classification.ClassificationState :=
  {| Classification.result_ := Some c_good;
     Classification.loading := false;
     Classification.error := None;
     Classification.similarQuestions :=
       [ {| Classification.sq_id := "q7";
            Classification.sq_text := "Find the area of a disc of radius 3.";
            Classification.sq_similarity := 0.9%float |} ];
     Classification.validationStatus := Classification.vs_needs_review;
     Classification.qualityIssues := ["Found 1 similar questions"] |}.

(** A reviewer corrects the Bloom level only. *)
Definition p_bloom_only : ClassificationView.PartialResult :=
  {| ClassificationView.p_bloom_level := Some "analyzing";
     ClassificationView.p_knowledge_dimension := None;
     ClassificationView.p_difficulty := None;
     ClassificationView.p_confidence := None;
     ClassificationView.p_quality_score := None;
     ClassificationView.p_readability_score := None;
     ClassificationView.p_needs_review := None |}.

(** An analyzer whose similarity computation always fails, and one whose
    clustering fails. *)
Definition analyzer_down : Semantic.Analyzer :=
  {| Semantic.calculateSimilarity := fun _ _ => Err (ErrorObject "timeout");
     Semantic.analyzer_clusterQuestions := fun _ => Ok [] |}.

Definition analyzer_cluster_down : Semantic.Analyzer :=
  {| Semantic.calculateSimilarity :=
       fun a b => Ok (if bool_decide (a = b) then 1%float else 0.75%float);
     Semantic.analyzer_clusterQuestions := fun _ => Err OtherValue |}.

(** The pairs the loops find in the sample bank at threshold 0.8. *)
Definition pairs_at_08 : Semantic.Acc :=
  match Semantic.detectPairs analyzer_cluster_down 0.8%float bank_sample with
  | Ok acc => acc
  | Err _ => ([], 0%nat)
  end.

End MoreSamples.

(** * Properties *)

(** ** Auxiliary facts on lists *)

Lemma lookup_map {A B} (f : A -> B) (l : list A) (i : nat) :
  map f l !! i = f <$> l !! i.
Proof.
  revert i. induction l as [|a l IH]; intros [|i]; cbn; auto.
Qed.

(** ** The validation workflow *)
Section ValidationFacts.
Import Validation.

(** What a successful submitValidation leaves in the store. *)
Lemma submitValidation_exec (env : Env) (uid qid : string) (vr : ValidationResult)
    (s : Store) (q : Question) :
  auth_user env = Some uid ->
  questions s !! qid = Some q ->
  exec (submitValidation qid vr) env s =
    Ok {| questions := alter (validated_patch uid (now env) vr) qid (questions s);
          classification_validations :=
            classification_validations s ++
              [ {| vr_question_id := qid;
                   vr_original_classification := Some (classification_of q);
                   vr_validated_classification := Some (validated_classification vr);
                   vr_validator_id := uid;
                   vr_validation_confidence := validation_confidence vr;
                   vr_notes := notes vr |} ];
          review_requests :=
            map (fun r => if request_matches qid uid r then set_status completed r else r)
                (review_requests s) |}.
Proof.
  intros Hu Hq.
  unfold exec, submitValidation, bind, getUser, selectQuestionSingle,
    insertValidation, getNow, updateQuestion, completeRequests.
  rewrite Hu. cbn. rewrite Hq. reflexivity.
Qed.

(** Without a signed-in user or without the question row nothing is
    written: the call throws. *)
Lemma submitValidation_throws (env : Env) (qid : string) (vr : ValidationResult) (s : Store) :
  auth_user env = None \/ questions s !! qid = None ->
  exists e, exec (submitValidation qid vr) env s = Err e.
Proof.
  unfold exec, submitValidation, bind, getUser, selectQuestionSingle.
  intros [Hu | Hq].
  - rewrite Hu. eauto.
  - destruct (auth_user env); [cbn; rewrite Hq|]; eauto.
Qed.

(** What a successful rejectValidation leaves in the store. *)
Lemma rejectValidation_exec (env : Env) (uid qid reason : string) (s : Store) :
  auth_user env = Some uid ->
  exec (rejectValidation qid reason) env s =
    Ok {| questions := alter (rejected_patch uid (now env)) qid (questions s);
          classification_validations :=
            classification_validations s ++
              [ {| vr_question_id := qid;
                   vr_original_classification := None;
                   vr_validated_classification := None;
                   vr_validator_id := uid;
                   vr_validation_confidence := 0%float;
                   vr_notes := Some ("Rejected: " +:+ reason) |} ];
          review_requests := review_requests s |}.
Proof.
  intros Hu.
  unfold exec, rejectValidation, bind, getUser, getNow, updateQuestion, insertValidation.
  rewrite Hu. reflexivity.
Qed.

(** A later rejection overwrites exactly what an earlier one wrote. *)
Lemma rejected_patch_absorbs (u1 t1 u2 t2 : string) (q : Question) :
  rejected_patch u2 t2 (rejected_patch u1 t1 q) = rejected_patch u2 t2 q.
Proof. reflexivity. Qed.

(** C1: for a question that is in the store, submitValidation (run by a
    signed-in reviewer) appends one validation record whose original
    classification is the bloom level, knowledge dimension, difficulty and
    confidence the question had just before the call and whose validated
    classification is the submitted one; afterwards the question's bloom
    level, knowledge dimension and difficulty are the submitted ones and
    its confidence is the submitted validation confidence. *)
Theorem C1_submitValidation_snapshot (env : Env) (uid qid : string)
    (vr : ValidationResult) (s : Store) (q : Question) :
  auth_user env = Some uid ->
  questions s !! qid = Some q ->
  exists (s' : Store) (rec : ValidationRecord) (q' : Question),
    exec (submitValidation qid vr) env s = Ok s'
    /\ classification_validations s' = classification_validations s ++ [rec]
    /\ vr_question_id rec = qid
    /\ vr_original_classification rec =
         Some {| oc_bloom_level := bloom_level q;
                 oc_knowledge_dimension := knowledge_dimension q;
                 oc_difficulty := difficulty q;
                 oc_confidence := classification_confidence q |}
    /\ vr_validated_classification rec = Some (validated_classification vr)
    /\ questions s' !! qid = Some q'
    /\ bloom_level q' = vc_bloom_level (validated_classification vr)
    /\ knowledge_dimension q' = vc_knowledge_dimension (validated_classification vr)
    /\ difficulty q' = vc_difficulty (validated_classification vr)
    /\ classification_confidence q' = validation_confidence vr
    /\ validation_status q' = "validated".
Proof.
  intros Hu Hq.
  eexists _, _, (validated_patch uid (now env) vr q).
  split; [apply (submitValidation_exec env uid qid vr s q Hu Hq)|].
  cbn. rewrite lookup_alter_eq, Hq. cbn.
  repeat split; reflexivity.
Qed.

(** C3 (as amended): rejectValidation sets the status of the question to
    rejected and its needs_review flag to true.  A second call with the same
    arguments leaves the status, the flag, the text and the classification as
    the first call left them, touches no other row, and writes validated_by
    and validation_timestamp anew with its own user and time; so the question
    record after two calls is the record after one exactly when both calls
    ran under the same user and the same clock reading. *)
Theorem C3_rejectValidation_twice (env1 env2 : Env) (u1 u2 qid reason : string)
    (s : Store) (q : Question) :
  auth_user env1 = Some u1 ->
  auth_user env2 = Some u2 ->
  questions s !! qid = Some q ->
  exists (s1 s2 : Store) (q1 q2 : Question),
    exec (rejectValidation qid reason) env1 s = Ok s1
    /\ exec (rejectValidation qid reason) env2 s1 = Ok s2
    /\ questions s1 !! qid = Some q1
    /\ questions s2 !! qid = Some q2
    /\ validation_status q1 = "rejected"
    /\ needs_review q1 = true
    /\ validated_by q1 = Some u1
    /\ validation_timestamp q1 = Some (now env1)
    /\ validation_status q2 = validation_status q1
    /\ needs_review q2 = needs_review q1
    /\ question_text q2 = question_text q1
    /\ classification_of q2 = classification_of q1
    /\ validated_by q2 = Some u2
    /\ validation_timestamp q2 = Some (now env2)
    /\ (forall qid', qid' <> qid -> questions s2 !! qid' = questions s1 !! qid')
    /\ (q2 = q1 <-> u2 = u1 /\ now env2 = now env1).
Proof.
  intros H1 H2 Hq.
  eexists _, _, (rejected_patch u1 (now env1) q), (rejected_patch u2 (now env2) q).
  split; [apply (rejectValidation_exec env1 u1 qid reason s H1)|].
  split; [apply (rejectValidation_exec env2 u2 qid reason _ H2)|].
  cbn [questions].
  split; [rewrite lookup_alter_eq, Hq; reflexivity|].
  split; [rewrite !lookup_alter_eq, Hq; cbn; rewrite rejected_patch_absorbs; reflexivity|].
  do 10 (split; [reflexivity|]).
  split.
  - intros qid' Hne. apply lookup_alter_ne. congruence.
  - split.
    + intros Heq. split.
      * apply (f_equal validated_by) in Heq. cbn in Heq. congruence.
      * apply (f_equal validation_timestamp) in Heq. cbn in Heq. congruence.
    + intros [-> ->]. reflexivity.
Qed.

(** C9 (as amended): after a successful submitValidation, a review request
    for that question that was pending and is assigned to the submitting
    user is completed; a pending request for that question assigned to
    another reviewer, or to nobody, is left as it was. *)
Theorem C9_submitValidation_completes_own_requests (env : Env) (uid qid : string)
    (vr : ValidationResult) (s s' : Store) (i : nat) (r : ReviewRequest) :
  auth_user env = Some uid ->
  exec (submitValidation qid vr) env s = Ok s' ->
  review_requests s !! i = Some r ->
  rr_question_id r = qid ->
  rr_status r = pending ->
  (rr_assigned_to r = Some uid ->
     exists r', review_requests s' !! i = Some r'
                /\ rr_status r' = completed
                /\ rr_id r' = rr_id r
                /\ rr_question_id r' = qid
                /\ rr_assigned_to r' = Some uid)
  /\ (rr_assigned_to r <> Some uid -> review_requests s' !! i = Some r).
Proof.
  intros Hu Hrun Hr Hq Hp.
  destruct (questions s !! qid) as [q|] eqn:Hlook.
  - rewrite (submitValidation_exec env uid qid vr s q Hu Hlook) in Hrun.
    injection Hrun as <-. cbn. rewrite lookup_map, Hr. cbn.
    unfold request_matches. split.
    + intros Ha. rewrite !bool_decide_eq_true_2 by assumption. cbn.
      eexists. repeat split; assumption.
    + intros Ha. rewrite (bool_decide_eq_false_2 _ Ha), andb_false_r. reflexivity.
  - destruct (submitValidation_throws env qid vr s (or_intror Hlook)) as [e He].
    congruence.
Qed.

End ValidationFacts.

(** *** Concrete runs of the validation workflow *)
Section ValidationExamples.
Import Validation Samples.

Lemma C1_witness :
  exists (s' : Store) (rec : ValidationRecord) (q' : Question),
    exec (submitValidation "q1" vr_sample) env_alice store_sample = Ok s'
    /\ classification_validations s' = classification_validations store_sample ++ [rec]
    /\ vr_question_id rec = "q1"
    /\ vr_original_classification rec =
         Some {| oc_bloom_level := "remembering";
                 oc_knowledge_dimension := "factual";
                 oc_difficulty := "easy";
                 oc_confidence := 0.55%float |}
    /\ vr_validated_classification rec = Some (validated_classification vr_sample)
    /\ questions s' !! "q1" = Some q'
    /\ bloom_level q' = "understanding"
    /\ knowledge_dimension q' = "conceptual"
    /\ difficulty q' = "average"
    /\ classification_confidence q' = 0.9%float
    /\ validation_status q' = "validated".
Proof.
  apply (C1_submitValidation_snapshot env_alice "alice" "q1" vr_sample store_sample q_sample);
    reflexivity.
Defined.

(** C3 as stated fails: alice rejects q1 at 08:00 and again at 09:30.  The
    question record after the second call is not the record after the first:
    its validation_timestamp is the later one.  Status and flag agree. *)
Lemma C3_counterexample :
  exists (s1 s2 : Store) (q1 q2 : Question),
    exec (rejectValidation "q1" "ambiguous stem") env_alice store_sample = Ok s1
    /\ exec (rejectValidation "q1" "ambiguous stem") env_alice_later s1 = Ok s2
    /\ questions s1 !! "q1" = Some q1
    /\ questions s2 !! "q1" = Some q2
    /\ validation_timestamp q1 = Some "2025-01-15T08:00:00.000Z"
    /\ validation_timestamp q2 = Some "2025-01-15T09:30:00.000Z"
    /\ q2 <> q1
    /\ questions s2 <> questions s1.
Proof.
  eexists _, _, _, _.
  split; [apply (rejectValidation_exec env_alice "alice" "q1" "ambiguous stem" store_sample);
          reflexivity|].
  split; [apply (rejectValidation_exec env_alice_later "alice" "q1" "ambiguous stem");
          reflexivity|].
  cbn [questions].
  split; [reflexivity|]. split; [reflexivity|].
  split; [reflexivity|]. split; [reflexivity|].
  split; [discriminate|].
  intros Heq. apply (f_equal (fun m => m !! "q1")) in Heq. discriminate Heq.
Qed.

Lemma C3_witness :
  exists (s1 s2 : Store) (q1 q2 : Question),
    exec (rejectValidation "q1" "ambiguous stem") env_alice store_sample = Ok s1
    /\ exec (rejectValidation "q1" "ambiguous stem") env_alice_later s1 = Ok s2
    /\ questions s1 !! "q1" = Some q1
    /\ questions s2 !! "q1" = Some q2
    /\ validation_status q1 = "rejected"
    /\ needs_review q1 = true
    /\ validated_by q1 = Some "alice"
    /\ validation_timestamp q1 = Some (now env_alice)
    /\ validation_status q2 = validation_status q1
    /\ needs_review q2 = needs_review q1
    /\ question_text q2 = question_text q1
    /\ classification_of q2 = classification_of q1
    /\ validated_by q2 = Some "alice"
    /\ validation_timestamp q2 = Some (now env_alice_later)
    /\ (forall qid', qid' <> "q1" -> questions s2 !! qid' = questions s1 !! qid')
    /\ (q2 = q1 <-> "alice" = "alice" /\ now env_alice_later = now env_alice).
Proof.
  apply (C3_rejectValidation_twice env_alice env_alice_later "alice" "alice"
           "q1" "ambiguous stem" store_sample q_sample);
    reflexivity.
Defined.

(** C9 as stated fails: alice submits a validation for q1 while a pending
    request for q1 is assigned to bob; that request is still pending
    afterwards and no request with its id is completed. *)
Lemma C9_counterexample :
  exists (s' : Store) (r : ReviewRequest),
    exec (submitValidation "q1" vr_sample) env_alice store_sample = Ok s'
    /\ review_requests store_sample !! 1%nat = Some r
    /\ rr_question_id r = "q1"
    /\ rr_status r = pending
    /\ review_requests s' !! 1%nat = Some r
    /\ ~ (exists r', r' ∈ review_requests s' /\ rr_id r' = rr_id r /\ rr_status r' = completed).
Proof.
  eexists _, (request_for "r2" (Some "bob")).
  split; [apply (submitValidation_exec env_alice "alice" "q1" vr_sample store_sample q_sample);
          reflexivity|].
  repeat split.
  intros (r' & Hin & Hid & Hst). cbn in Hin.
  apply elem_of_cons in Hin as [-> | Hin]; [discriminate Hid|].
  apply elem_of_cons in Hin as [-> | Hin]; [discriminate Hst|].
  inversion Hin.
Qed.

Lemma C9_witness :
  exists s' : Store,
    exec (submitValidation "q1" vr_sample) env_alice store_sample = Ok s'
    /\ ((rr_assigned_to (request_for "r1" (Some "alice")) = Some "alice" ->
         exists r', review_requests s' !! 0%nat = Some r'
                    /\ rr_status r' = completed
                    /\ rr_id r' = "r1"
                    /\ rr_question_id r' = "q1"
                    /\ rr_assigned_to r' = Some "alice")
        /\ (rr_assigned_to (request_for "r1" (Some "alice")) <> Some "alice" ->
            review_requests s' !! 0%nat = Some (request_for "r1" (Some "alice")))).
Proof.
  eexists. split.
  - apply (submitValidation_exec env_alice "alice" "q1" vr_sample store_sample q_sample);
      reflexivity.
  - apply (C9_submitValidation_completes_own_requests env_alice "alice" "q1" vr_sample
             store_sample _ 0%nat (request_for "r1" (Some "alice")));
      reflexivity.
Defined.

End ValidationExamples.

(** ** Classification with quality gates *)
Section ClassificationFacts.
Import Classification.

(** The default quality threshold is 0.6 and the default similarity
    threshold 0.7. *)
Lemma default_thresholds (o : UseEnhancedClassificationOptions) :
  (qualityThreshold o = None -> get_qualityThreshold o = 0.6%float)
  /\ (similarityThreshold o = None -> get_similarityThreshold o = 0.7%float).
Proof.
  unfold get_qualityThreshold, get_similarityThreshold.
  split; intros ->; reflexivity.
Qed.

(** A low quality score or a low confidence puts an issue on the list. *)
Lemma qualityAssessment_nonempty (threshold : float) (c : MLClassificationResult) :
  JsNum.ltb (confidence c) 0.7%float = true
  \/ JsNum.ltb (quality_score c) threshold = true ->
  qualityAssessment threshold c <> [].
Proof.
  unfold qualityAssessment. intros [H | H]; rewrite H.
  - destruct (JsNum.ltb (quality_score c) threshold),
      (JsNum.ltb 12 (readability_score c)); discriminate.
  - discriminate.
Qed.

(** A non-empty issue list decides the status. *)
Lemma determineStatus_issues (c : MLClassificationResult) (issues : list string) :
  issues <> [] -> determineStatus c issues = vs_needs_review.
Proof.
  unfold determineStatus. destruct issues as [|i issues]; [congruence|].
  intros _. cbn. rewrite orb_true_r. reflexivity.
Qed.

(** The two ways a call can end: the try block committed a state and the
    error field is empty, or it threw and the catch clause recorded it. *)
Lemma classifyQuestion_cases (svc : Services) (o : UseEnhancedClassificationOptions)
    (rendered : ClassificationState) (q : QuestionInput) (prev : ClassificationState) :
  (exists c similar,
      ml_classifyQuestion svc q = Ok c
      /\ similarityCheck svc o q = Ok similar
      /\ classifyQuestion svc o rendered q prev =
           ({| result_ := Some c;
               loading := false;
               error := None;
               similarQuestions := similar;
               validationStatus :=
                 determineStatus c (qualityAssessment (get_qualityThreshold o) c
                                    ++ similarIssue similar);
               qualityIssues :=
                 qualityAssessment (get_qualityThreshold o) c ++ similarIssue similar |},
            storeClassificationResult svc rendered c))
  \/ (exists e,
        (ml_classifyQuestion svc q = Err e
         \/ (exists c, ml_classifyQuestion svc q = Ok c /\ similarityCheck svc o q = Err e))
        /\ classifyQuestion svc o rendered q prev =
             (fail_with e (start_loading prev),
              [ConsoleError "Classification error:" e;
               ToastError "Failed to classify question"])).
Proof.
  unfold classifyQuestion, classifyBody.
  destruct (ml_classifyQuestion svc q) as [c|e]; [|right; eauto].
  destruct (similarityCheck svc o q) as [similar|e]; [left|right]; eauto 8.
Qed.

(** C2: whenever classifyQuestion ends without an error and holds the
    classification [c] it obtained, a confidence below 0.7 or a quality score
    below the configured quality threshold (0.6 when none is configured)
    makes the validation status needs_review and the list of quality issues
    non-empty. *)
Theorem C2_low_confidence_or_quality_needs_review (svc : Services)
    (o : UseEnhancedClassificationOptions) (rendered : ClassificationState)
    (q : QuestionInput) (prev st' : ClassificationState) (effs : list Effect)
    (c : MLClassificationResult) :
  classifyQuestion svc o rendered q prev = (st', effs) ->
  error st' = None ->
  result_ st' = Some c ->
  JsNum.ltb (confidence c) 0.7%float = true
  \/ JsNum.ltb (quality_score c) (get_qualityThreshold o) = true ->
  validationStatus st' = vs_needs_review
  /\ qualityIssues st' <> []
  /\ ml_classifyQuestion svc q = Ok c
  /\ (qualityThreshold o = None -> get_qualityThreshold o = 0.6%float).
Proof.
  intros Hrun Herr Hres Hlow.
  destruct (classifyQuestion_cases svc o rendered q prev)
    as [(c0 & similar & Hml & _ & Heq) | (e & _ & Heq)];
    rewrite Heq in Hrun; injection Hrun as <- <-; cbn in *; [|discriminate].
  injection Hres as ->.
  assert (Hne : qualityAssessment (get_qualityThreshold o) c ++ similarIssue similar <> []).
  { intros Happ. apply app_eq_nil in Happ as [Hq _].
    exact (qualityAssessment_nonempty _ _ Hlow Hq). }
  split; [apply determineStatus_issues, Hne|].
  split; [exact Hne|]. split; [exact Hml|].
  apply default_thresholds.
Qed.

(** C5: when classifyQuestion meets an internal error, that is when the
    classifier call or the similar-question search throws into its catch
    clause, it records the message of the thrown error (or 'Classification
    failed' for a thrown value that is no Error) in the error field, clears
    the loading flag, reports a toast, and leaves the previously held result,
    similar questions, status and issue list as they were. *)
Theorem C5_classification_failure_keeps_result (svc : Services)
    (o : UseEnhancedClassificationOptions) (rendered : ClassificationState)
    (q : QuestionInput) (prev : ClassificationState) (e : Thrown) :
  ml_classifyQuestion svc q = Err e
  \/ (exists c, ml_classifyQuestion svc q = Ok c
                /\ get_checkSimilarity o = true
                /\ findSimilarQuestions svc (text q) (get_similarityThreshold o) = Err e) ->
  exists st' effs,
    classifyQuestion svc o rendered q prev = (st', effs)
    /\ error st' = Some (error_message e)
    /\ loading st' = false
    /\ result_ st' = result_ prev
    /\ similarQuestions st' = similarQuestions prev
    /\ validationStatus st' = validationStatus prev
    /\ qualityIssues st' = qualityIssues prev
    /\ ConsoleError "Classification error:" e ∈ effs
    /\ ToastError "Failed to classify question" ∈ effs.
Proof.
  intros H.
  assert (Hbody : classifyBody svc o q = Err e).
  { unfold classifyBody, similarityCheck.
    destruct H as [-> | (c & -> & -> & ->)]; reflexivity. }
  unfold classifyQuestion. rewrite Hbody.
  eexists _, _. split; [reflexivity|]. cbn.
  repeat split; [apply list_elem_of_here | apply list_elem_of_further, list_elem_of_here].
Qed.

(** A failure while storing the metrics is caught by
    storeClassificationResult: the new result stays and no error is set. *)
Lemma store_failure_not_surfaced (svc : Services) (o : UseEnhancedClassificationOptions)
    (rendered : ClassificationState) (q : QuestionInput) (prev : ClassificationState)
    (c : MLClassificationResult) (similar : list SimilarQuestion) :
  ml_classifyQuestion svc q = Ok c ->
  similarityCheck svc o q = Ok similar ->
  error (fst (classifyQuestion svc o rendered q prev)) = None
  /\ result_ (fst (classifyQuestion svc o rendered q prev)) = Some c.
Proof.
  intros Hml Hsim. unfold classifyQuestion, classifyBody.
  rewrite Hml, Hsim. split; reflexivity.
Qed.

End ClassificationFacts.

(** *** Concrete runs of the classifier hook *)
Section ClassificationExamples.
Import Classification Samples.

(** A confident answer of good quality with no similar question is
    validated and has no issue. *)
Example good_classification_validated :
  validationStatus (fst (classifyQuestion (svc_answering c_good) opts_default
                           cs_initial qi_sample cs_initial)) = vs_validated
  /\ qualityIssues (fst (classifyQuestion (svc_answering c_good) opts_default
                           cs_initial qi_sample cs_initial)) = [].
Proof. split; reflexivity. Qed.

Lemma C2_witness :
  validationStatus (fst (classifyQuestion (svc_answering c_lowconf) opts_default
                           cs_initial qi_sample cs_initial)) = vs_needs_review
  /\ qualityIssues (fst (classifyQuestion (svc_answering c_lowconf) opts_default
                           cs_initial qi_sample cs_initial)) <> []
  /\ ml_classifyQuestion (svc_answering c_lowconf) qi_sample = Ok c_lowconf
  /\ (qualityThreshold opts_default = None -> get_qualityThreshold opts_default = 0.6%float).
Proof.
  apply (C2_low_confidence_or_quality_needs_review (svc_answering c_lowconf) opts_default
           cs_initial qi_sample cs_initial _
           (snd (classifyQuestion (svc_answering c_lowconf) opts_default
                   cs_initial qi_sample cs_initial))
           c_lowconf).
  - reflexivity.
  - reflexivity.
  - reflexivity.
  - left. reflexivity.
Defined.

Lemma C5_witness :
  exists st' effs,
    classifyQuestion svc_ml_down opts_default cs_classified qi_sample cs_classified
      = (st', effs)
    /\ error st' = Some "model unavailable"
    /\ loading st' = false
    /\ result_ st' = Some c_lowconf
    /\ similarQuestions st' = []
    /\ validationStatus st' = vs_needs_review
    /\ qualityIssues st' = ["Low classification confidence - needs human review"]
    /\ ConsoleError "Classification error:" (ErrorObject "model unavailable") ∈ effs
    /\ ToastError "Failed to classify question" ∈ effs.
Proof.
  apply (C5_classification_failure_keeps_result svc_ml_down opts_default cs_classified
           qi_sample cs_classified (ErrorObject "model unavailable")).
  left. reflexivity.
Defined.

End ClassificationExamples.

(** ** Comparison of JavaScript numbers *)
Section JsNumFacts.

Lemma lex_pos_le (m1 m2 : positive) (e1 e2 : Z) :
  match
    Some match (e1 ?= e2)%Z with
         | Lt => Lt | Gt => Gt | Eq => Pos.compare_cont Eq m1 m2
         end
  with Some (Lt | Eq) => true | _ => false end = true
  <-> (e1 < e2 \/ (e1 = e2 /\ (m1 <= m2)%positive))%Z.
Proof.
  change (Pos.compare_cont Eq m1 m2) with (m1 ?= m2)%positive.
  destruct (Z.compare_spec e1 e2) as [->| |];
    [|split; [auto|reflexivity]|split; [discriminate|lia]].
  destruct (Pos.compare_spec m1 m2) as [->| |]; split; intros;
    try reflexivity; try discriminate; lia.
Qed.

Lemma lex_neg_le (m1 m2 : positive) (e1 e2 : Z) :
  match
    Some match (e1 ?= e2)%Z with
         | Lt => Gt | Gt => Lt | Eq => CompOpp (Pos.compare_cont Eq m1 m2)
         end
  with Some (Lt | Eq) => true | _ => false end = true
  <-> (e2 < e1 \/ (e1 = e2 /\ (m2 <= m1)%positive))%Z.
Proof.
  change (Pos.compare_cont Eq m1 m2) with (m1 ?= m2)%positive.
  destruct (Z.compare_spec e1 e2) as [->| |];
    [|split; [discriminate|lia]|split; [auto|reflexivity]].
  destruct (Pos.compare_spec m1 m2) as [->| |]; cbn [CompOpp]; split; intros;
    try reflexivity; try discriminate; lia.
Qed.

(** The order of the specification floats is transitive, NaN included (it
    is below and above nothing). *)
Lemma SFleb_trans (x y z : spec_float) :
  SFleb x y = true -> SFleb y z = true -> SFleb x z = true.
Proof.
  unfold SFleb.
  destruct x as [sx|sx| |sx mx ex], y as [sy|sy| |sy my ey], z as [sz|sz| |sz mz ez];
    cbn [SFcompare];
    repeat match goal with b : bool |- _ => destruct b end;
    try discriminate; try reflexivity.
  - rewrite !lex_neg_le. lia.
  - rewrite !lex_pos_le. lia.
Qed.

Lemma leb_trans (x y z : float) :
  PrimFloat.leb x y = true -> PrimFloat.leb y z = true -> PrimFloat.leb x z = true.
Proof. rewrite !leb_spec. apply SFleb_trans. Qed.

(** [t1 <= t2] and [x >= t2] give [x >= t1]. *)
Lemma geb_weaken (x t1 t2 : float) :
  PrimFloat.leb t1 t2 = true -> JsNum.geb x t2 = true -> JsNum.geb x t1 = true.
Proof. unfold JsNum.geb. apply leb_trans. Qed.

End JsNumFacts.

(** ** Whole-bank redundancy analysis *)
Section SemanticFacts.
Import Semantic.

Lemma for_each_related {A S1 S2} (R : S1 -> S2 -> Prop)
    (body1 : S1 -> A -> result S1) (body2 : S2 -> A -> result S2) (l : list A) :
  (forall s1 s2 a, R s1 s2 -> related R (body1 s1 a) (body2 s2 a)) ->
  forall s1 s2, R s1 s2 -> related R (for_each body1 l s1) (for_each body2 l s2).
Proof.
  intros Hbody. induction l as [|a l IH]; intros s1 s2 HR; cbn; [exact HR|].
  specialize (Hbody s1 s2 a HR). unfold related in Hbody.
  destruct (body1 s1 a) as [s1'|e1], (body2 s2 a) as [s2'|e2]; try contradiction.
  - apply IH, Hbody.
  - exact Hbody.
Qed.

Variable an : Analyzer.
Variables t1 t2 : float.
Hypothesis Hle : PrimFloat.leb t1 t2 = true.
Variable questions : list BankQuestion.

Lemma compare_pair_shrinks (i j : nat) (acc1 acc2 : Acc) :
  shrinks t2 acc1 acc2 ->
  related (shrinks t2) (compare_pair an t1 questions i acc1 j)
                  (compare_pair an t2 questions i acc2 j).
Proof.
  intros (Hf & Hn1 & Hn2). unfold compare_pair.
  destruct (questions !! i) as [qi|]; [|reflexivity].
  destruct (questions !! j) as [qj|]; [|reflexivity].
  destruct (calculateSimilarity an (text qi) (text qj)) as [sim|e]; [|reflexivity].
  destruct (JsNum.geb sim t2) eqn:H2.
  - rewrite (geb_weaken sim t1 t2 Hle H2).
    unfold related, shrinks. cbn [fst snd].
    rewrite filter_app, <- Hf, filter_cons_True, filter_nil, !length_app by exact H2.
    cbn [length]. repeat split; lia.
  - destruct (JsNum.geb sim t1) eqn:H1; unfold related, shrinks; cbn [fst snd];
      [|repeat split; assumption].
    rewrite filter_app, <- Hf, filter_cons_False, filter_nil, app_nil_r, !length_app
      by (cbn [similarity]; congruence).
    cbn [length]. repeat split; lia.
Qed.

Lemma detectPairs_shrinks :
  related (shrinks t2) (detectPairs an t1 questions) (detectPairs an t2 questions).
Proof.
  unfold detectPairs. apply for_each_related.
  - intros acc1 acc2 i HR. unfold inner_loop. apply for_each_related; [|exact HR].
    intros s1 s2 j. apply compare_pair_shrinks.
  - repeat split.
Qed.

End SemanticFacts.

Section SemanticClaims.
Import Semantic.

(** C4: for a fixed analyzer, question list and prior state, and two
    thresholds with t1 <= t2, every pair analyzeQuestionBank flags at
    threshold t2 is also flagged at threshold t1. *)
Theorem C4_redundancy_threshold_monotonic (an : Analyzer)
    (o1 o2 : UseSemanticAnalysisOptions) (questions : list BankQuestion)
    (st : SemanticAnalysisState) :
  PrimFloat.leb (get_similarityThreshold o1) (get_similarityThreshold o2) = true ->
  forall p : SimilarPair,
    p ∈ flaggedPairs (analyzeQuestionBank an o2 questions st) ->
    p ∈ flaggedPairs (analyzeQuestionBank an o1 questions st).
Proof.
  intros Hle p.
  pose proof (detectPairs_shrinks an _ _ Hle questions) as Hrel.
  unfold flaggedPairs, analyzeQuestionBank, clusterQuestions.
  unfold related in Hrel.
  destruct (detectPairs an (get_similarityThreshold o1) questions) as [[ps1 n1]|e1],
           (detectPairs an (get_similarityThreshold o2) questions) as [[ps2 n2]|e2];
    try contradiction.
  - destruct Hrel as (Hf & _). cbn in Hf.
    destruct (get_clusteringEnabled o1), (get_clusteringEnabled o2);
      repeat match goal with
             | |- context [analyzer_clusterQuestions an questions] =>
                 destruct (analyzer_clusterQuestions an questions)
             end; cbn; rewrite Hf; intros Hin;
      apply list_elem_of_filter in Hin as [_ Hin]; exact Hin.
  - destruct (get_clusteringEnabled o1), (get_clusteringEnabled o2);
      repeat match goal with
             | |- context [analyzer_clusterQuestions an questions] =>
                 destruct (analyzer_clusterQuestions an questions)
             end; cbn; auto.
Qed.

End SemanticClaims.

Section SemanticExamples.
Import Semantic Samples.

(** At threshold 0.7 all three pairs of the sample bank are flagged, at 0.8
    only the pair with equal texts. *)
Example flagged_at_07 :
  map (fun p => (id1 p, id2 p))
      (flaggedPairs (analyzeQuestionBank analyzer_sample (opts_threshold 0.7%float)
                       bank_sample sa_initial))
  = [("q1", "q2"); ("q1", "q3"); ("q2", "q3")].
Proof. vm_compute. reflexivity. Qed.

Example flagged_at_08 :
  map (fun p => (id1 p, id2 p))
      (flaggedPairs (analyzeQuestionBank analyzer_sample (opts_threshold 0.8%float)
                       bank_sample sa_initial))
  = [("q1", "q2")].
Proof. vm_compute. reflexivity. Qed.

Lemma C4_witness :
  PrimFloat.leb 0.7%float 0.8%float = true
  /\ forall p : SimilarPair,
       p ∈ flaggedPairs (analyzeQuestionBank analyzer_sample (opts_threshold 0.8%float)
                           bank_sample sa_initial) ->
       p ∈ flaggedPairs (analyzeQuestionBank analyzer_sample (opts_threshold 0.7%float)
                           bank_sample sa_initial).
Proof.
  split; [reflexivity|].
  apply (C4_redundancy_threshold_monotonic analyzer_sample
           (opts_threshold 0.7%float) (opts_threshold 0.8%float) bank_sample sa_initial).
  reflexivity.
Defined.

End SemanticExamples.

(** ** The TOS matrix: item-number display *)
Section FormatItemNumbersFacts.
Import TOSMatrix Spec.
Local Open Scope Z_scope.

(** On a well-formed run the loop's test [start === end] and the
    specification's test [a < b] choose the same display. *)
Lemma group_string_render (a b : Z) :
  (a <= b)%Z -> group_string a b = render (a, b).
Proof.
  intros Hab. unfold group_string, render. cbn [fst snd].
  destruct (Z.eqb_spec a b) as [->|Hne].
  - rewrite Z.ltb_irrefl. reflexivity.
  - rewrite (proj2 (Z.ltb_lt a b)) by lia. reflexivity.
Qed.

(** The loop closes the groups that [runs_from] lists. *)
Lemma group_loop_runs (rest : list Z) (groups : list string) (start end_ : Z) :
  (start <= end_)%Z ->
  let '(groups', start', end') := fold_left group_step rest (groups, start, end_) in
  groups' ++ [group_string start' end'] = groups ++ map render (runs_from start end_ rest).
Proof.
  revert groups start end_.
  induction rest as [|x rest IH]; intros groups start end_ Hle; cbn [fold_left runs_from].
  - cbn. rewrite group_string_render by exact Hle. reflexivity.
  - unfold group_step at 2. destruct (Z.eqb_spec x (end_ + 1)) as [->|Hne].
    + apply IH. lia.
    + specialize (IH (groups ++ [group_string start end_]) x x (Z.le_refl x)).
      destruct (fold_left group_step rest (groups ++ [group_string start end_], x, x))
        as [[groups' start'] end'].
      rewrite IH, <- app_assoc, group_string_render by exact Hle. reflexivity.
Qed.

Lemma runs_from_head (start end_ : Z) (rest : list Z) :
  exists e rs, runs_from start end_ rest = (start, e) :: rs.
Proof.
  revert end_. induction rest as [|x rest IH]; intros end_; cbn; [eauto|].
  destruct (x =? end_ + 1)%Z; eauto.
Qed.

Lemma expand_snoc (a b : Z) :
  (a <= b)%Z -> expand (a, b + 1) = expand (a, b) ++ [(b + 1)%Z].
Proof.
  intros Hab. unfold expand. cbn [fst snd].
  replace (b + 1 - a + 1)%Z with ((b - a + 1) + 1)%Z by lia.
  rewrite seqZ_app by lia.
  replace (a + (b - a + 1))%Z with (b + 1)%Z by lia.
  reflexivity.
Qed.

Lemma expand_single (x : Z) : expand (x, x) = [x].
Proof.
  unfold expand. cbn [fst snd]. replace (x - x + 1)%Z with 1%Z by lia. reflexivity.
Qed.

(** [runs_from] yields the maximal runs of the numbers read so far followed
    by the rest. *)
Lemma runs_from_maximal (rest : list Z) (start end_ : Z) :
  (start <= end_)%Z ->
  maximal_runs (expand (start, end_) ++ rest) (runs_from start end_ rest).
Proof.
  revert start end_.
  induction rest as [|x rest IH]; intros start end_ Hle; cbn [runs_from].
  - split; [|split].
    + constructor; [exact Hle | constructor].
    + exact I.
    + cbn. rewrite !app_nil_r. reflexivity.
  - destruct (Z.eqb_spec x (end_ + 1)) as [->|Hne].
    + specialize (IH start (end_ + 1)%Z ltac:(lia)).
      rewrite expand_snoc, <- app_assoc in IH by exact Hle. exact IH.
    + destruct (IH x x (Z.le_refl x)) as (Hall & Hsep & Hcat).
      destruct (runs_from_head x x rest) as (e & rs & Heq).
      rewrite Heq in *. split; [|split].
      * constructor; [exact Hle | exact Hall].
      * split; [exact Hne | exact Hsep].
      * cbn [map concat]. cbn [map concat] in Hcat. rewrite Hcat, expand_single.
        reflexivity.
Qed.

(** Reading on inside a run: the numbers [end_+1 .. b] extend it. *)
Lemma runs_from_continue (start end_ : Z) (n : nat) (tail : list Z) :
  runs_from start end_ (seqZ (end_ + 1) (Z.of_nat n) ++ tail)
  = runs_from start (end_ + Z.of_nat n) tail.
Proof.
  revert end_. induction n as [|n IH]; intros end_.
  - cbn. rewrite Z.add_0_r. reflexivity.
  - rewrite seqZ_cons by lia. cbn [app runs_from].
    rewrite Z.eqb_refl.
    replace (Z.pred (Z.of_nat (S n))) with (Z.of_nat n) by lia.
    replace (Z.succ (end_ + 1)) with (end_ + 1 + 1)%Z by lia.
    rewrite IH. f_equal. lia.
Qed.

(** The maximal runs of a list are unique: they are the ones the loop
    reads off. *)
Lemma maximal_runs_unique (rs : list Run) (items : list Z) :
  maximal_runs items rs ->
  match rs with
  | [] => items = []
  | (a, b) :: rs' =>
      exists tail, items = expand (a, b) ++ tail /\ rs = runs_from a b tail
  end.
Proof.
  revert items. induction rs as [|[a b] rs IH]; intros items (Hall & Hsep & Hcat).
  - symmetry. exact Hcat.
  - cbn [map concat] in Hcat. exists (concat (map expand rs)).
    split; [symmetry; exact Hcat|].
    inversion Hall as [|r rs0 Hab Hall']; subst. cbn [fst snd] in Hab.
    destruct rs as [|[c d] rs'].
    + reflexivity.
    + destruct Hsep as [Hne Hsep]. cbn [fst snd] in Hne.
      specialize (IH _ (conj Hall' (conj Hsep eq_refl))).
      destruct IH as (tail & Htail & Hrs).
      inversion Hall' as [|r rs0 Hcd _]; subst. cbn [fst snd] in Hcd.
      rewrite Htail. unfold expand at 1. cbn [fst snd].
      rewrite seqZ_cons by lia. cbn [app runs_from].
      destruct (Z.eqb_spec c (b + 1)) as [Heq|_]; [contradiction|].
      f_equal.
      replace (Z.pred (d - c + 1)) with (Z.of_nat (Z.to_nat (d - c))) by lia.
      replace (Z.succ c) with (c + 1)%Z by lia.
      rewrite runs_from_continue.
      replace (c + Z.of_nat (Z.to_nat (d - c)))%Z with d by lia.
      exact Hrs.
Qed.

(** C10 (as amended): on lists of safe integers, the empty list is
    displayed as '-', a single number as its decimal string, and a longer list
    as its maximal runs of consecutive ascending numbers, which cover the list
    once and in order and are uniquely determined, each run a..b with a < b
    displayed as 'a-b' and each isolated number as itself, joined with ', '
    and put in parentheses. *)
Theorem C10_formatItemNumbers_run_length :
  formatItemNumbers [] = "-"
  /\ (forall x : Z, safe_integer x -> formatItemNumbers [x] = pretty x)
  /\ (forall items : list Z,
        Forall safe_integer items ->
        (2 <= length items)%nat ->
        exists rs : list Run,
          maximal_runs items rs
          /\ (forall rs', maximal_runs items rs' -> rs' = rs)
          /\ formatItemNumbers items = "(" +:+ join ", " (map render rs) +:+ ")").
Proof.
  split; [reflexivity|]. split; [reflexivity|].
  intros [|x [|y rest]] _ Hlen; cbn in Hlen; try lia.
  exists (runs_from x x (y :: rest)).
  pose proof (runs_from_maximal (y :: rest) x x (Z.le_refl x)) as Hmax.
  rewrite expand_single in Hmax. cbn [app] in Hmax.
  split; [exact Hmax|]. split.
  - intros rs' Hrs'. pose proof (maximal_runs_unique rs' _ Hrs') as Hu.
    destruct rs' as [|[a b] rs'']; [discriminate Hu|].
    destruct Hu as (tail & Hitems & ->).
    destruct Hrs' as (Hall & _ & _).
    inversion Hall as [|r rs0 Hab _]; subst. cbn [fst snd] in Hab.
    unfold expand in Hitems. cbn [fst snd] in Hitems.
    rewrite seqZ_cons in Hitems by lia. cbn [app] in Hitems.
    injection Hitems as <- Hrest. rewrite Hrest.
    replace (Z.pred (b - x + 1)) with (Z.of_nat (Z.to_nat (b - x))) by lia.
    replace (Z.succ x) with (x + 1)%Z by lia.
    rewrite runs_from_continue. f_equal. lia.
  - unfold formatItemNumbers.
    pose proof (group_loop_runs (y :: rest) [] x x (Z.le_refl x)) as Hloop.
    destruct (fold_left group_step (y :: rest) ([], x, x)) as [[groups start] end_].
    rewrite Hloop. reflexivity.
Qed.

End FormatItemNumbersFacts.

Section FormatItemNumbersExamples.
Import TOSMatrix.

Example formatItemNumbers_mixed :
  formatItemNumbers [1; 2; 3; 5; 7; 8]%Z = "(1-3, 5, 7-8)".
Proof. vm_compute. reflexivity. Qed.

Example formatItemNumbers_pair : formatItemNumbers [4; 5]%Z = "(4-5)".
Proof. vm_compute. reflexivity. Qed.

Example formatItemNumbers_descending : formatItemNumbers [5; 4; 4]%Z = "(5, 4, 4)".
Proof. vm_compute. reflexivity. Qed.

(** C10 as stated fails beyond the safe integers: on the list [2^53, 2^53]
    the loop computes [end + 1] in binary64, where 2^53 + 1 is 2^53, takes the
    second element for the successor of the first and closes a single group
    with [start === end], displayed as one number for two elements, while the
    list has two maximal runs, each an isolated number. *)
Lemma C10_counterexample :
  groups_binary64 [9007199254740992%float; 9007199254740992%float]
    = [(9007199254740992%float, 9007199254740992%float)]
  /\ PrimFloat.eqb 9007199254740992%float 9007199254740992%float = true
  /\ Spec.maximal_runs [9007199254740992; 9007199254740992]%Z
       [(9007199254740992, 9007199254740992)%Z; (9007199254740992, 9007199254740992)%Z]
  /\ ~ safe_integer 9007199254740992%Z.
Proof.
  split; [vm_compute; reflexivity|]. split; [vm_compute; reflexivity|]. split.
  - split; [|split].
    + repeat constructor; cbn; lia.
    + split; [cbn; lia | exact I].
    + vm_compute. reflexivity.
  - unfold safe_integer. lia.
Qed.

Lemma C10_witness :
  exists rs : list Spec.Run,
    Spec.maximal_runs [1; 2; 3; 5; 7; 8]%Z rs
    /\ (forall rs', Spec.maximal_runs [1; 2; 3; 5; 7; 8]%Z rs' -> rs' = rs)
    /\ formatItemNumbers [1; 2; 3; 5; 7; 8]%Z
       = "(" +:+ join ", " (map Spec.render rs) +:+ ")".
Proof.
  apply (proj2 (proj2 C10_formatItemNumbers_run_length) [1; 2; 3; 5; 7; 8]%Z).
  - unfold safe_integer. repeat constructor; lia.
  - cbn. lia.
Defined.

End FormatItemNumbersExamples.

(** ** The TOS matrix: totals *)
Section TotalsFacts.
Import TOSMatrix Spec.

(** The accumulator of the per-level sum can be taken out. *)
Lemma level_sum_acc (k : BloomKey) (topics : list TopicDistribution) (acc : nat) :
  fold_left (fun sum topic => (sum + length (cell k topic))%nat) topics acc
  = (acc + fold_left (fun sum topic => (sum + length (cell k topic))%nat) topics 0)%nat.
Proof.
  revert acc. induction topics as [|t topics IH]; intros acc; cbn [fold_left].
  - lia.
  - rewrite IH, (IH (0 + _)%nat). lia.
Qed.

(** [bloomTotals] holds the six level totals, in the order of [bloomLevels]. *)
Lemma bloomTotals_unfold (data : TOSData) :
  bloomTotals data =
    [ (remembering, levelTotal data remembering);
      (understanding, levelTotal data understanding);
      (applying, levelTotal data applying);
      (analyzing, levelTotal data analyzing);
      (evaluating, levelTotal data evaluating);
      (creating, levelTotal data creating) ].
Proof. reflexivity. Qed.

(** The grand total counts every item number of every cell. *)
Lemma grandTotal_counts_cells (data : TOSData) :
  grandTotal data = length (all_item_numbers data).
Proof.
  unfold grandTotal. rewrite bloomTotals_unfold.
  unfold object_values at 1. cbn [map snd fold_left].
  unfold levelTotal, all_item_numbers.
  induction (object_values (distribution data)) as [|t topics IH].
  - reflexivity.
  - cbn [fold_left map concat bloomLevels key] in IH |- *.
    rewrite !(level_sum_acc _ topics (0 + _)%nat).
    rewrite !length_app, <- IH. cbn [length]. lia.
Qed.

(** C8: for a valid TOS (the item numbers of all cells are exactly
    1..totalItems, no gaps, no overlaps) the grand total of the matrix, the sum
    over the six Bloom levels of the per-level totals over all topics, equals
    the configured total number of items. *)
Theorem C8_grandTotal_equals_totalItems (data : TOSData) :
  valid_tos data ->
  Z.of_nat (grandTotal data) = totalItems data.
Proof.
  intros [Hnonneg Hperm].
  rewrite grandTotal_counts_cells, (Permutation_length Hperm), length_seqZ.
  lia.
Qed.

End TotalsFacts.

Section TotalsExamples.
Import TOSMatrix Spec Samples.

Example grandTotal_sample : grandTotal tos_sample = 10%nat.
Proof. reflexivity. Qed.

Lemma C8_witness :
  valid_tos tos_sample /\ Z.of_nat (grandTotal tos_sample) = totalItems tos_sample.
Proof.
  assert (Hvalid : valid_tos tos_sample).
  { split; [cbn; lia | vm_compute; reflexivity]. }
  split; [exact Hvalid | apply (C8_grandTotal_equals_totalItems tos_sample Hvalid)].
Defined.

End TotalsExamples.

(** ** The test preview: total points *)
Section TotalPointsFacts.
Import TestPreview.

Lemma fold_points_map {A} (f : A -> float) (l : list A) (acc : float) :
  fold_left (fun sum a => (sum + f a)%float) l acc
  = fold_left PrimFloat.add (map f l) acc.
Proof.
  revert acc. induction l as [|a l IH]; intros acc; cbn; [reflexivity | apply IH].
Qed.

(** An item that carries points other than zero and NaN counts with them. *)
Lemma points_or_one_truthy (item : TestItem) (p : float) :
  points item = Some p -> JsNum.truthy p = true -> points_or_one item = p.
Proof. unfold points_or_one. intros -> ->. reflexivity. Qed.

(** An item without points, or with zero points, counts for one point. *)
Lemma points_or_one_default (item : TestItem) :
  points item = None \/ points item = Some 0%float -> points_or_one item = 1%float.
Proof. unfold points_or_one. intros [-> | ->]; reflexivity. Qed.

(** The header of the rendered page shows the number of items and
    [totalPoints]. *)
Lemma render_header (test : GeneratedTest) (shown : bool) :
  render test shown !! 1%nat
  = Some {| print_hidden := false;
            block := Header (length (items_of test)) (totalPoints (items_of test)) |}.
Proof. reflexivity. Qed.

(** C7 (as amended): the total the preview displays is the sum, in item
    order, of what each item counts for: its points, or 1 when it has none or
    they are zero (or NaN).  In particular, for a test all of whose items
    carry points other than zero and NaN, it is the sum of the items' points. *)
Theorem C7_totalPoints_sum_with_default (test : GeneratedTest) :
  totalPoints (items_of test)
    = fold_left PrimFloat.add (map points_or_one (items_of test)) 0%float
  /\ (forall pts : list float,
        map points (items_of test) = map Some pts ->
        Forall (fun p => JsNum.truthy p = true) pts ->
        totalPoints (items_of test) = fold_left PrimFloat.add pts 0%float).
Proof.
  unfold totalPoints. rewrite fold_points_map. split; [reflexivity|].
  intros pts Hpts Htruthy. f_equal.
  revert pts Hpts Htruthy.
  induction (items_of test) as [|item items IH]; intros [|p pts] Hpts Htruthy;
    try discriminate Hpts; [reflexivity|].
  cbn [map] in *. injection Hpts as Hp Hpts.
  inversion Htruthy as [|p0 pts0 Hp_truthy Hrest]; subst.
  rewrite (points_or_one_truthy item p Hp Hp_truthy), (IH pts Hpts Hrest).
  reflexivity.
Qed.

End TotalPointsFacts.

Section TotalPointsExamples.
Import TestPreview Samples.

(** C7 as stated fails: a test whose only item is worth 0 points is
    displayed with a total of 1 point, while its per-item points sum to 0. *)
Lemma C7_counterexample :
  map points [item_with_points (Some 0%float)] = map Some [0%float]
  /\ totalPoints [item_with_points (Some 0%float)] = 1%float
  /\ fold_left PrimFloat.add [0%float] 0%float = 0%float
  /\ totalPoints [item_with_points (Some 0%float)]
     <> fold_left PrimFloat.add [0%float] 0%float.
Proof.
  repeat split.
  intros H. apply (f_equal (fun x => PrimFloat.eqb x 1%float)) in H.
  vm_compute in H. discriminate H.
Qed.

Lemma C7_witness :
  totalPoints (items_of test_sample)
    = fold_left PrimFloat.add (map points_or_one (items_of test_sample)) 0%float
  /\ totalPoints (items_of test_sample) = 7%float.
Proof.
  destruct (C7_totalPoints_sum_with_default test_sample) as [Hsum Hall].
  split; [exact Hsum|].
  apply (Hall [2%float; 5%float]).
  - reflexivity.
  - repeat constructor.
Defined.

End TotalPointsExamples.

(** ** The test preview: printing *)
Section PrintFacts.
Import TestPreview.

(** The print operation, click and timer with nothing in between, prints
    the page rendered with the answer key hidden and then shows the answer
    key, whatever the toggle was before. *)
Lemma printOperation_unfold (test : GeneratedTest) (ui : UI) :
  printOperation test ui
  = {| showAnswerKey := true;
       timers := timers ui;
       printouts := printouts ui ++ [printed (render test false)] |}.
Proof. reflexivity. Qed.

(** The answer key is suppressed when the timer fires right after the click. *)
Lemma handlePrint_hides_key (ui : UI) : showAnswerKey (handlePrint ui) = false.
Proof. reflexivity. Qed.

(** No printed page contains the answer key block: it is only rendered
    when the toggle is on, and then with the print:hidden class. *)
Lemma printed_without_answer_key (test : GeneratedTest) (shown : bool) :
  Forall (fun b => is_answer_key b = false) (printed (render test shown)).
Proof.
  destruct shown; cbn; repeat constructor.
Qed.

(** On screen, with the toggle on, the answer key is part of the page. *)
Example screen_shows_answer_key :
  Exists (fun e => is_answer_key (block e) = true) (render Samples.test_sample true).
Proof. do 5 apply Exists_cons_tl. apply Exists_cons_hd. reflexivity. Qed.

(** This holds for every sequence of clicks and timer events. *)
Lemma run_never_prints_answer_key (test : GeneratedTest) (evs : list Event) (ui : UI) :
  Forall (Forall (fun b => is_answer_key b = false)) (printouts ui) ->
  Forall (Forall (fun b => is_answer_key b = false)) (printouts (run test evs ui)).
Proof.
  revert ui. induction evs as [|ev evs IH]; intros ui Hui; [exact Hui|].
  cbn [run fold_left]. apply IH.
  destruct ev; cbn [step]; try exact Hui.
  unfold printCallback. destruct (timers ui); [exact Hui|].
  cbn [printouts]. apply Forall_app. split; [exact Hui|].
  constructor; [apply printed_without_answer_key | constructor].
Qed.

(** After the print operation the answer key is shown; the visibility from
    before the call is restored exactly when the key was shown before. *)
Lemma printOperation_restores_iff_shown (test : GeneratedTest) (ui : UI) :
  showAnswerKey (printOperation test ui) = showAnswerKey ui <-> showAnswerKey ui = true.
Proof.
  rewrite printOperation_unfold. cbn [showAnswerKey]. split; congruence.
Qed.

(** C6, the code at the failing input: the teacher has hidden the answer
    key and prints.  The page goes to paper without the answer key, and
    afterwards the answer key is shown although it was hidden before the
    call. *)
Theorem C6_print_shows_previously_hidden_key :
  showAnswerKey Samples.ui_key_hidden = false
  /\ showAnswerKey (printOperation Samples.test_sample Samples.ui_key_hidden) = true
  /\ showAnswerKey (printOperation Samples.test_sample Samples.ui_key_hidden)
     <> showAnswerKey Samples.ui_key_hidden
  /\ Forall (Forall (fun b => is_answer_key b = false))
            (printouts (printOperation Samples.test_sample Samples.ui_key_hidden)).
Proof.
  repeat split; [discriminate|].
  apply (run_never_prints_answer_key Samples.test_sample [ClickPrint; TimerFires]).
  constructor.
Qed.

End PrintFacts.

(** * Further properties of the validation workflow *)
Section ValidationMoreFacts.
Import Validation ValidationQueries.

(** requestValidation, run by a signed-in user, appends one pending request. *)
Lemma requestValidation_exec (env : Env) (uid newId qid : string) (ty : RequestType)
    (assignee : option string) (s : Store) :
  auth_user env = Some uid ->
  exec (requestValidation newId qid ty assignee) env s =
    Ok {| questions := questions s;
          classification_validations := classification_validations s;
          review_requests :=
            review_requests s ++
              [ {| rr_id := newId;
                   rr_question_id := qid;
                   rr_request_type := ty;
                   rr_requested_by := uid;
                   rr_assigned_to := assignee;
                   rr_status := pending |} ] |}.
Proof.
  intros Hu. unfold exec, requestValidation, bind, getUser. rewrite Hu. reflexivity.
Qed.

(** X1: submitValidation completes exactly when a user is signed in and the
    question row exists; rejectValidation completes exactly when a user is
    signed in, whether or not the question exists. *)
Theorem X1_validation_success_conditions (env : Env) (qid reason : string)
    (vr : ValidationResult) (s : Store) :
  ((exists s', exec (submitValidation qid vr) env s = Ok s')
   <-> is_Some (auth_user env) /\ is_Some (questions s !! qid))
  /\ ((exists s', exec (rejectValidation qid reason) env s = Ok s')
      <-> is_Some (auth_user env)).
Proof.
  split; split.
  - intros [s' Hrun].
    destruct (auth_user env) as [uid|] eqn:Hu; [|].
    + destruct (questions s !! qid) as [q|] eqn:Hq; [eauto|].
      destruct (submitValidation_throws env qid vr s (or_intror Hq)) as [e He]. congruence.
    + destruct (submitValidation_throws env qid vr s (or_introl Hu)) as [e He]. congruence.
  - intros [[uid Hu] [q Hq]]. eexists. apply (submitValidation_exec env uid qid vr s q Hu Hq).
  - intros [s' Hrun]. destruct (auth_user env) as [uid|] eqn:Hu; [eauto|].
    unfold exec, rejectValidation, bind, getUser in Hrun. rewrite Hu in Hrun. discriminate.
  - intros [uid Hu]. eexists. apply (rejectValidation_exec env uid qid reason s Hu).
Qed.

(** X2: a successful submitValidation touches nothing but the validated
    question's classification columns: every other question row is as before,
    the validated row keeps its text and its needs_review flag, no request is
    added or removed, and a request for another question or another assignee
    is as before. *)
Theorem X2_submitValidation_frame (env : Env) (uid qid : string) (vr : ValidationResult)
    (s s' : Store) :
  auth_user env = Some uid ->
  exec (submitValidation qid vr) env s = Ok s' ->
  (forall qid', qid' <> qid -> questions s' !! qid' = questions s !! qid')
  /\ (forall q q', questions s !! qid = Some q -> questions s' !! qid = Some q' ->
        question_text q' = question_text q /\ needs_review q' = needs_review q)
  /\ length (review_requests s') = length (review_requests s)
  /\ (forall i r, review_requests s !! i = Some r ->
        rr_question_id r <> qid \/ rr_assigned_to r <> Some uid ->
        review_requests s' !! i = Some r).
Proof.
  intros Hu Hrun.
  destruct (questions s !! qid) as [q0|] eqn:Hq.
  2:{ destruct (submitValidation_throws env qid vr s (or_intror Hq)) as [e He]. congruence. }
  rewrite (submitValidation_exec env uid qid vr s q0 Hu Hq) in Hrun.
  injection Hrun as <-. cbn. split; [|split; [|split]].
  - intros qid' Hne. apply lookup_alter_ne. congruence.
  - intros q q' Hbefore Hafter.
    rewrite lookup_alter_eq, Hq in Hafter. cbn in Hafter.
    injection Hafter as <-. injection Hbefore as <-. split; reflexivity.
  - apply length_map.
  - intros i r Hr Hother. rewrite lookup_map, Hr. cbn. unfold request_matches.
    destruct Hother as [Hne | Hne].
    + rewrite (bool_decide_eq_false_2 _ Hne). reflexivity.
    + rewrite (bool_decide_eq_false_2 _ Hne), andb_false_r. reflexivity.
Qed.

(** X3: the update of review_requests has no status filter: every request
    for the question that is assigned to the submitting user ends completed,
    also one that was in progress, cancelled or completed already. *)
Theorem X3_submitValidation_completes_any_status (env : Env) (uid qid : string)
    (vr : ValidationResult) (s s' : Store) (i : nat) (r : ReviewRequest) :
  auth_user env = Some uid ->
  exec (submitValidation qid vr) env s = Ok s' ->
  review_requests s !! i = Some r ->
  rr_question_id r = qid ->
  rr_assigned_to r = Some uid ->
  review_requests s' !! i = Some (set_status completed r).
Proof.
  intros Hu Hrun Hr Hq Ha.
  destruct (questions s !! qid) as [q0|] eqn:Hlook.
  2:{ destruct (submitValidation_throws env qid vr s (or_intror Hlook)) as [e He]. congruence. }
  rewrite (submitValidation_exec env uid qid vr s q0 Hu Hlook) in Hrun.
  injection Hrun as <-. cbn. rewrite lookup_map, Hr. cbn. unfold request_matches.
  rewrite !bool_decide_eq_true_2 by assumption. reflexivity.
Qed.

(** X4: rejectValidation never touches the review requests (a pending
    request for the rejected question stays pending) and does not check that
    the question exists: for an unknown id the question table is unchanged and
    a rejection record with empty payloads and the reason in its notes is
    logged all the same. *)
Theorem X4_rejectValidation_requests_and_unknown_id (env : Env) (uid qid reason : string)
    (s s' : Store) :
  auth_user env = Some uid ->
  exec (rejectValidation qid reason) env s = Ok s' ->
  review_requests s' = review_requests s
  /\ (questions s !! qid = None -> questions s' = questions s)
  /\ classification_validations s' =
       classification_validations s ++
         [ {| vr_question_id := qid;
              vr_original_classification := None;
              vr_validated_classification := None;
              vr_validator_id := uid;
              vr_validation_confidence := 0%float;
              vr_notes := Some ("Rejected: " +:+ reason) |} ].
Proof.
  intros Hu Hrun. rewrite (rejectValidation_exec env uid qid reason s Hu) in Hrun.
  injection Hrun as <-. cbn. repeat split.
  intros Hnone. apply map_eq. intros k. rewrite lookup_alter.
  case_decide; [subst; rewrite Hnone; reflexivity | reflexivity].
Qed.

(** X5: a request made with requestValidation is completed by a later
    submitValidation for the same question exactly when it was assigned to the
    submitting user; assigned to somebody else, or to nobody, it is still
    pending afterwards. *)
Theorem X5_request_then_submit (env1 env2 : Env) (u1 u2 newId qid : string)
    (ty : RequestType) (assignee : option string) (vr : ValidationResult)
    (s : Store) :
  auth_user env1 = Some u1 ->
  auth_user env2 = Some u2 ->
  is_Some (questions s !! qid) ->
  exists s1 s2 r,
    exec (requestValidation newId qid ty assignee) env1 s = Ok s1
    /\ exec (submitValidation qid vr) env2 s1 = Ok s2
    /\ review_requests s2 !! length (review_requests s) = Some r
    /\ rr_id r = newId
    /\ rr_status r = (if bool_decide (assignee = Some u2) then completed else pending).
Proof.
  intros H1 H2 [q Hq].
  pose (req := {| rr_id := newId; rr_question_id := qid; rr_request_type := ty;
                  rr_requested_by := u1; rr_assigned_to := assignee;
                  rr_status := pending |}).
  eexists _, _, (if bool_decide (assignee = Some u2) then set_status completed req else req).
  split; [apply (requestValidation_exec env1 u1 newId qid ty assignee s H1)|].
  split; [apply (submitValidation_exec env2 u2 qid vr _ q H2); exact Hq|].
  cbn. rewrite lookup_map.
  rewrite lookup_app_r, Nat.sub_diag by lia. cbn.
  unfold request_matches. cbn.
  rewrite bool_decide_eq_true_2 by reflexivity. cbn.
  destruct (bool_decide (assignee = Some u2)); repeat split.
Qed.

Lemma attempt_invariants (env : Env) (a : Action) (s : Store) :
  classification_validations s `prefix_of` classification_validations (attempt env a s)
  /\ dom (questions (attempt env a s)) = dom (questions s).
Proof.
  unfold attempt.
  destruct (auth_user env) as [uid|] eqn:Hu.
  - destruct a as [qid vr | qid reason | newId qid ty assignee]; cbn [perform].
    + destruct (questions s !! qid) as [q|] eqn:Hq.
      * rewrite (submitValidation_exec env uid qid vr s q Hu Hq). cbn.
        split; [apply prefix_app_r; reflexivity | apply dom_alter_L].
      * destruct (submitValidation_throws env qid vr s (or_intror Hq)) as [e ->].
        split; reflexivity.
    + rewrite (rejectValidation_exec env uid qid reason s Hu). cbn.
      split; [apply prefix_app_r; reflexivity | apply dom_alter_L].
    + rewrite (requestValidation_exec env uid newId qid ty assignee s Hu). cbn.
      split; reflexivity.
  - assert (Hfail : exists e, exec (perform a) env s = Err e).
    { destruct a; cbn [perform];
        unfold exec, submitValidation, rejectValidation, requestValidation, bind, getUser;
        rewrite Hu; eauto. }
    destruct Hfail as [e ->]. split; reflexivity.
Qed.

(** X6: the validation log is append-only and no action creates or deletes
    a question: whatever submissions, rejections and requests are run, by
    whatever users, successfully or not, the records present before are still
    there, unchanged and at the same positions, and the question table has the
    same ids. *)
Theorem X6_log_append_only (l : list (Env * Action)) (s : Store) :
  classification_validations s `prefix_of` classification_validations (run_actions l s)
  /\ dom (questions (run_actions l s)) = dom (questions s).
Proof.
  revert s. induction l as [|[env a] l IH]; intros s; [split; reflexivity|].
  cbn [run_actions fold_left fst snd].
  destruct (attempt_invariants env a s) as [Hp Hd].
  destruct (IH (attempt env a s)) as [Hp' Hd'].
  split; [etransitivity; [exact Hp | exact Hp'] | etransitivity; [exact Hd' | exact Hd]].
Qed.

End ValidationMoreFacts.

Section PendingListFacts.
Import Validation ValidationQueries.

Variable created_at : ReviewRequest -> string.
Variable newest_first : list ReviewRequest -> list ReviewRequest.
Variable newest_first_validations : list ValidationRecord -> list ValidationRecord.

(** Ordering rows neither adds nor drops one. *)
Hypothesis newest_first_perm : forall l, newest_first l ≡ₚ l.

(** The reviewer's pending rows after a submission are the pending rows
    from before that belong to other questions. *)
Lemma pendingRowsOf_after_submit (env : Env) (uid qid : string) (vr : ValidationResult)
    (s s' : Store) (r : ReviewRequest) :
  auth_user env = Some uid ->
  exec (submitValidation qid vr) env s = Ok s' ->
  r ∈ pendingRowsOf uid s' <-> r ∈ pendingRowsOf uid s /\ rr_question_id r <> qid.
Proof.
  intros Hu Hrun.
  destruct (questions s !! qid) as [q0|] eqn:Hq.
  2:{ destruct (submitValidation_throws env qid vr s (or_intror Hq)) as [e He]. congruence. }
  rewrite (submitValidation_exec env uid qid vr s q0 Hu Hq) in Hrun.
  injection Hrun as <-. unfold pendingRowsOf. cbn [review_requests].
  rewrite !list_elem_of_filter, list_elem_of_In, in_map_iff. split.
  - intros [[Ha Hp] (r0 & Hr0 & Hin)]. apply list_elem_of_In in Hin.
    unfold request_matches in Hr0.
    destruct (bool_decide (rr_question_id r0 = qid)) eqn:Hd1;
      [destruct (bool_decide (rr_assigned_to r0 = Some uid)) eqn:Hd2|]; cbn in Hr0; subst r.
    + discriminate Hp.
    + apply bool_decide_eq_false in Hd2. contradiction.
    + apply bool_decide_eq_false in Hd1. auto.
  - intros [[[Ha Hp] Hin] Hne]. split; [auto|].
    exists r. split; [|apply list_elem_of_In, Hin].
    unfold request_matches. rewrite (bool_decide_eq_false_2 _ Hne). reflexivity.
Qed.

(** X7: after a successful submitValidation the refreshed pending list of
    the submitting reviewer holds no request for the validated question;
    every entry of a loaded pending list is pending. *)
Theorem X7_pending_list_after_submit (env : Env) (uid qid : string) (vr : ValidationResult)
    (s s' : Store) (st : ValidationState) (req : ValidationRequest) :
  auth_user env = Some uid ->
  exec (submitValidation qid vr) env s = Ok s' ->
  req ∈ pendingValidations
          (loadValidationRequests created_at newest_first newest_first_validations env s' st) ->
  req_question_id req <> qid /\ req_status req = pending.
Proof.
  intros Hu Hrun. unfold loadValidationRequests. rewrite Hu. cbn [pendingValidations].
  rewrite list_elem_of_In, in_map_iff. intros (r & <- & Hin).
  apply list_elem_of_In in Hin. rewrite newest_first_perm in Hin.
  pose proof (proj1 (pendingRowsOf_after_submit env uid qid vr s s' r Hu Hrun) Hin)
    as [Hold Hne].
  unfold pendingRowsOf in Hold. apply list_elem_of_filter in Hold as [[_ Hp] _].
  split; [exact Hne | exact Hp].
Qed.

End PendingListFacts.

Section StatsFacts.
Import Validation ValidationQueries.

(** [x || 0] is never NaN. *)
Lemma or_zero_not_nan (x : float) : PrimFloat.is_nan (or_zero x) = false.
Proof.
  unfold or_zero, JsNum.truthy.
  destruct (PrimFloat.is_zero x), (PrimFloat.is_nan x) eqn:Hn; cbn; try reflexivity.
  exact Hn.
Qed.

(** X8: the statistics of a reviewer never show NaN as the average
    confidence improvement, not even for a reviewer without validations, where
    the mean is 0/0: then all three statistics are 0.  The accuracy rate is 0
    without validations and 0.85 otherwise. *)
Theorem X8_validation_stats_edge_cases (validations : list ValidationRecord) :
  PrimFloat.is_nan (avgConfidenceImprovement (computeStats validations)) = false
  /\ accuracyRate (computeStats validations)
     = (if bool_decide (validations = []) then 0%float else 0.85%float)
  /\ computeStats [] = stats initialState.
Proof.
  split; [apply or_zero_not_nan|]. split; [|reflexivity].
  destruct validations; reflexivity.
Qed.

End StatsFacts.

(** * Further facts on the comparison of JavaScript numbers *)
Section JsNumMoreFacts.

Lemma lex_pos_lt (m1 m2 : positive) (e1 e2 : Z) :
  match
    Some match (e1 ?= e2)%Z with
         | Lt => Lt | Gt => Gt | Eq => Pos.compare_cont Eq m1 m2
         end
  with Some Lt => true | _ => false end = true
  <-> (e1 < e2 \/ (e1 = e2 /\ (m1 < m2)%positive))%Z.
Proof.
  change (Pos.compare_cont Eq m1 m2) with (m1 ?= m2)%positive.
  destruct (Z.compare_spec e1 e2) as [->| |];
    [|split; [auto|reflexivity]|split; [discriminate|lia]].
  destruct (Pos.compare_spec m1 m2) as [->| |]; split; intros;
    try reflexivity; try discriminate; lia.
Qed.

Lemma lex_neg_lt (m1 m2 : positive) (e1 e2 : Z) :
  match
    Some match (e1 ?= e2)%Z with
         | Lt => Gt | Gt => Lt | Eq => CompOpp (Pos.compare_cont Eq m1 m2)
         end
  with Some Lt => true | _ => false end = true
  <-> (e2 < e1 \/ (e1 = e2 /\ (m2 < m1)%positive))%Z.
Proof.
  change (Pos.compare_cont Eq m1 m2) with (m1 ?= m2)%positive.
  destruct (Z.compare_spec e1 e2) as [->| |];
    [|split; [discriminate|lia]|split; [auto|reflexivity]].
  destruct (Pos.compare_spec m1 m2) as [->| |]; cbn [CompOpp]; split; intros;
    try reflexivity; try discriminate; lia.
Qed.

(** [x <= y] and [y < z] give [x < z]. *)
Lemma SFleb_ltb_trans (x y z : spec_float) :
  SFleb x y = true -> SFltb y z = true -> SFltb x z = true.
Proof.
  unfold SFleb, SFltb.
  destruct x as [sx|sx| |sx mx ex], y as [sy|sy| |sy my ey], z as [sz|sz| |sz mz ez];
    cbn [SFcompare];
    repeat match goal with b : bool |- _ => destruct b end;
    try discriminate; try reflexivity.
  - rewrite lex_neg_le, !lex_neg_lt. lia.
  - rewrite lex_pos_le, !lex_pos_lt. lia.
Qed.

(** [x <= y] excludes [y < x]. *)
Lemma SFleb_not_ltb (x y : spec_float) :
  SFleb x y = true -> SFltb y x = false.
Proof.
  intros Hle. destruct (SFltb y x) eqn:Hlt; [|reflexivity].
  pose proof (SFleb_ltb_trans x y x Hle Hlt) as Hxx.
  unfold SFltb in Hxx.
  destruct x as [sx|sx| |sx mx ex]; cbn [SFcompare] in Hxx;
    repeat match goal with b : bool |- _ => destruct b end; try discriminate.
  - apply lex_neg_lt in Hxx. lia.
  - apply lex_pos_lt in Hxx. lia.
Qed.

Lemma leb_ltb_trans (x y z : float) :
  PrimFloat.leb x y = true -> PrimFloat.ltb y z = true -> PrimFloat.ltb x z = true.
Proof. rewrite leb_spec, !ltb_spec. apply SFleb_ltb_trans. Qed.

Lemma geb_not_ltb (x y : float) : JsNum.geb x y = true -> JsNum.ltb x y = false.
Proof. unfold JsNum.geb, JsNum.ltb. rewrite leb_spec, ltb_spec. apply SFleb_not_ltb. Qed.

(** A number that is at least 0.8 is not below 0.7. *)
Lemma geb_08_not_ltb_07 (x : float) :
  JsNum.geb x 0.8%float = true -> JsNum.ltb x 0.7%float = false.
Proof.
  unfold JsNum.geb, JsNum.ltb. intros Hge.
  destruct (PrimFloat.ltb x 0.7%float) eqn:Hlt; [|reflexivity].
  pose proof (leb_ltb_trans _ _ _ Hge Hlt) as Habs.
  vm_compute in Habs. discriminate Habs.
Qed.

End JsNumMoreFacts.

(** * Further properties of the classifier hook *)
Section ClassificationMoreFacts.
Import Classification ClassificationView.

(** A state committed by the try block (the error field is empty) holds the
    classification and the issue list of this run. *)
Lemma classifyQuestion_committed (svc : Services) (o : UseEnhancedClassificationOptions)
    (rendered : ClassificationState) (q : QuestionInput) (prev st' : ClassificationState)
    (effs : list Effect) :
  classifyQuestion svc o rendered q prev = (st', effs) ->
  error st' = None ->
  exists c similar,
    ml_classifyQuestion svc q = Ok c
    /\ similarityCheck svc o q = Ok similar
    /\ result_ st' = Some c
    /\ similarQuestions st' = similar
    /\ qualityIssues st' = qualityAssessment (get_qualityThreshold o) c ++ similarIssue similar
    /\ validationStatus st' = determineStatus c (qualityIssues st')
    /\ effs = storeClassificationResult svc rendered c.
Proof.
  intros Hrun Herr.
  destruct (classifyQuestion_cases svc o rendered q prev)
    as [(c & similar & Hml & Hsim & Heq) | (e & _ & Heq)];
    rewrite Heq in Hrun; injection Hrun as <- <-; cbn in *; [|discriminate].
  exists c, similar. repeat split; assumption.
Qed.

(** X9: after a classification that ended without error, the status and
    the needsReview flag the hook returns agree: the status is needs_review
    when the flag is true and validated when it is false. *)
Theorem X9_status_agrees_with_needsReview (svc : Services)
    (o : UseEnhancedClassificationOptions) (rendered : ClassificationState)
    (q : QuestionInput) (prev st' : ClassificationState) (effs : list Effect) :
  classifyQuestion svc o rendered q prev = (st', effs) ->
  error st' = None ->
  validationStatus st' = (if needsReview st' then vs_needs_review else vs_validated).
Proof.
  intros Hrun Herr.
  destruct (classifyQuestion_committed _ _ _ _ _ _ _ Hrun Herr)
    as (c & similar & _ & _ & Hres & _ & _ & Hstatus & _).
  rewrite Hstatus. unfold determineStatus, needsReview, hasIssues. rewrite Hres.
  reflexivity.
Qed.

Lemma similarIssue_elem (similar : list SimilarQuestion) (issue : string) :
  issue ∈ similarIssue similar ->
  issue = "Found " +:+ pretty (length similar) +:+ " similar questions".
Proof.
  unfold similarIssue. destruct (0 <? length similar)%nat; [|intros H; inversion H].
  intros H. apply list_elem_of_singleton in H. exact H.
Qed.

(** X10: the flags and the issue list never contradict each other after a
    classification that ended without error: a result flagged isHighConfidence
    (confidence >= 0.8) carries no low-confidence issue, and a result flagged
    isHighQuality carries no below-threshold issue. *)
Theorem X10_high_flags_exclude_issues (svc : Services)
    (o : UseEnhancedClassificationOptions) (rendered : ClassificationState)
    (q : QuestionInput) (prev st' : ClassificationState) (effs : list Effect) :
  classifyQuestion svc o rendered q prev = (st', effs) ->
  error st' = None ->
  (isHighConfidence st' = true ->
     "Low classification confidence - needs human review" ∉ qualityIssues st')
  /\ (isHighQuality o st' = true ->
        "Question quality below threshold" ∉ qualityIssues st').
Proof.
  intros Hrun Herr.
  destruct (classifyQuestion_committed _ _ _ _ _ _ _ Hrun Herr)
    as (c & similar & _ & _ & Hres & _ & Hissues & _ & _).
  unfold isHighConfidence, isHighQuality. rewrite Hres, Hissues.
  unfold qualityAssessment. split; intros Hflag Hin.
  - rewrite (geb_08_not_ltb_07 _ Hflag), app_nil_r in Hin.
    rewrite !elem_of_app in Hin. destruct Hin as [[Hin | Hin] | Hin].
    + destruct (JsNum.ltb (quality_score c) (get_qualityThreshold o));
        [apply list_elem_of_singleton in Hin; discriminate Hin | inversion Hin].
    + destruct (JsNum.ltb 12 (readability_score c));
        [apply list_elem_of_singleton in Hin; discriminate Hin | inversion Hin].
    + apply similarIssue_elem in Hin. discriminate Hin.
  - rewrite (geb_not_ltb _ _ Hflag) in Hin. cbn [app] in Hin.
    rewrite !elem_of_app in Hin. destruct Hin as [[Hin | Hin] | Hin].
    + destruct (JsNum.ltb 12 (readability_score c));
        [apply list_elem_of_singleton in Hin; discriminate Hin | inversion Hin].
    + destruct (JsNum.ltb (confidence c) 0.7);
        [apply list_elem_of_singleton in Hin; discriminate Hin | inversion Hin].
    + apply similarIssue_elem in Hin. discriminate Hin.
Qed.

(** X11: with checkSimilarity switched off the similarity search is never
    consulted: two sets of services that agree on the classifier and on the
    inserts give the same state and the same effects, whatever their searches
    answer, and a committed state has no similar questions. *)
Theorem X11_checkSimilarity_off_ignores_search (svc svc' : Services)
    (o : UseEnhancedClassificationOptions) (rendered : ClassificationState)
    (q : QuestionInput) (prev : ClassificationState) :
  get_checkSimilarity o = false ->
  ml_classifyQuestion svc q = ml_classifyQuestion svc' q ->
  (forall m, insert_quality_metric svc m = insert_quality_metric svc' m) ->
  (forall rows, insert_similarities svc rows = insert_similarities svc' rows) ->
  classifyQuestion svc o rendered q prev = classifyQuestion svc' o rendered q prev
  /\ (error (fst (classifyQuestion svc o rendered q prev)) = None ->
      similarQuestions (fst (classifyQuestion svc o rendered q prev)) = []).
Proof.
  intros Hoff Hml Hmetric Hsim.
  unfold classifyQuestion, classifyBody, similarityCheck. rewrite Hoff, <- Hml.
  destruct (ml_classifyQuestion svc q) as [c|e]; [|split; [reflexivity | discriminate]].
  split; [|reflexivity].
  f_equal. unfold storeClassificationResult. rewrite <- !Hmetric, <- Hsim. reflexivity.
Qed.

(** X12: the similarity rows that classifyQuestion stores are built from
    the similar questions of the state the hook was rendered with, not from
    those this run found; rendered with none (as on the first classification)
    it stores no similarity row at all. *)
Theorem X12_stored_similarities_are_stale (svc : Services)
    (o : UseEnhancedClassificationOptions) (rendered : ClassificationState)
    (q : QuestionInput) (prev : ClassificationState)
    (rows : list (string * string * float * string)) :
  StoredSimilarities rows ∈ snd (classifyQuestion svc o rendered q prev) ->
  similarQuestions rendered <> []
  /\ rows = map (fun sim => ("temp", sq_id sim, sq_similarity sim, "semantic_analyzer_v1"))
                (similarQuestions rendered).
Proof.
  unfold classifyQuestion.
  destruct (classifyBody svc o q) as [[c st2]|e]; cbn [snd].
  - unfold storeClassificationResult.
    destruct (insert_quality_metric svc _);
      [destruct (insert_quality_metric svc _);
       [destruct (similarQuestions rendered) as [|sq sqs] eqn:Hsq; cbn [length Nat.ltb Nat.leb];
        [|destruct (insert_similarities svc _)]|]|];
      intros Hin;
      repeat (apply elem_of_cons in Hin as [Hin | Hin]; [try discriminate Hin|]);
      try (inversion Hin; fail).
    injection Hin as ->. split; [discriminate | reflexivity].
  - intros Hin.
    repeat (apply elem_of_cons in Hin as [Hin | Hin]; [discriminate Hin|]).
    inversion Hin.
Qed.

(** X13: a committed classification keeps at most five similar questions
    and lists at most four quality issues. *)
Theorem X13_classification_bounds (svc : Services)
    (o : UseEnhancedClassificationOptions) (rendered : ClassificationState)
    (q : QuestionInput) (prev st' : ClassificationState) (effs : list Effect) :
  classifyQuestion svc o rendered q prev = (st', effs) ->
  error st' = None ->
  length (similarQuestions st') <= 5 /\ length (qualityIssues st') <= 4.
Proof.
  intros Hrun Herr.
  destruct (classifyQuestion_committed _ _ _ _ _ _ _ Hrun Herr)
    as (c & similar & _ & Hsim & _ & Hsimilar & Hissues & _ & _).
  rewrite Hsimilar, Hissues. split.
  - unfold similarityCheck in Hsim. destruct (get_checkSimilarity o).
    + destruct (findSimilarQuestions svc _ _) as [sims|e]; [|discriminate Hsim].
      injection Hsim as <-. rewrite length_map, length_take. lia.
    + injection Hsim as <-. cbn. lia.
  - unfold qualityAssessment, similarIssue. rewrite !length_app.
    destruct (JsNum.ltb (quality_score c) _), (JsNum.ltb 12 _),
      (JsNum.ltb (confidence c) _), (0 <? length similar)%nat; cbn; lia.
Qed.

(** X14: validateClassification marks the state validated but keeps the
    issue list, so a state that had issues is validated and still flagged
    needsReview; the validation is recorded under the placeholder question id
    'temp' with the classification held before as its original. *)
Theorem X14_validated_yet_needs_review (uid : string) (question : QuestionInput)
    (p : PartialResult) (notes : option string) (st : ClassificationState)
    (c : MLClassificationResult) :
  result_ st = Some c ->
  qualityIssues st <> [] ->
  exists st',
    validateClassification (Some uid) (Some question) p notes st
      = (st', [InsertedValidation "temp" c p uid 0.9%float notes;
               ToastSuccess "Classification validated successfully"])
    /\ validationStatus st' = vs_validated
    /\ needsReview st' = true
    /\ result_ st' = Some (merge c p)
    /\ qualityIssues st' = qualityIssues st.
Proof.
  intros Hres Hissues. unfold validateClassification. rewrite Hres.
  eexists. split; [reflexivity|]. cbn.
  repeat split. unfold needsReview, hasIssues. cbn.
  destruct (qualityIssues st); [congruence|]. apply orb_true_r.
Qed.

(** X15: validateClassification records a validation only for a signed-in
    user with a question and a classification at hand; in every other case the
    state is returned as it was (the authentication error is caught, not
    rethrown). *)
Theorem X15_validateClassification_guards (auth : option string)
    (question : option QuestionInput) (p : PartialResult) (notes : option string)
    (st : ClassificationState) :
  (is_Some auth /\ is_Some question /\ is_Some (result_ st)
   /\ exists qid orig validated uid conf n,
        InsertedValidation qid orig validated uid conf n
          ∈ snd (validateClassification auth question p notes st))
  \/ (fst (validateClassification auth question p notes st) = st
      /\ forall qid orig validated uid conf n,
           InsertedValidation qid orig validated uid conf n
             ∉ snd (validateClassification auth question p notes st)).
Proof.
  unfold validateClassification.
  destruct (result_ st) as [c|], question as [qi|], auth as [uid|]; cbn.
  1: { left. repeat split; eauto. eexists _, _, _, _, _, _. apply list_elem_of_here. }
  all: right; split; [reflexivity|]; intros qid orig validated u conf n Hin;
    repeat (apply elem_of_cons in Hin as [Hin | Hin]; [discriminate Hin|]);
    inversion Hin.
Qed.

End ClassificationMoreFacts.

(** * Further properties of the semantic analysis hook *)
Section DetectRedundancyFacts.
Import Semantic SemanticQueries.

(** [find] returns the first question with the text, if there is one. *)
Lemma find_by_text_spec (existing : list ExistingQuestion) (t : string) :
  match find_by_text existing t with
  | Some q =>
      exists i, existing !! i = Some q /\ eq_text q = t
                /\ forall j q', (j < i)%nat -> existing !! j = Some q' -> eq_text q' <> t
  | None => forall q, q ∈ existing -> eq_text q <> t
  end.
Proof.
  unfold find_by_text. induction existing as [|q0 existing IH]; cbn [List.find].
  - intros q Hin. inversion Hin.
  - destruct (bool_decide (eq_text q0 = t)) eqn:Hd.
    + apply bool_decide_eq_true in Hd. exists 0%nat. repeat split; [exact Hd|].
      intros j q' Hj. lia.
    + apply bool_decide_eq_false in Hd.
      destruct (List.find _ existing) as [q|].
      * destruct IH as (i & Hi & Ht & Hfirst). exists (S i). repeat split; [exact Hi | exact Ht|].
        intros [|j] q' Hj Hq'; cbn in Hq'; [congruence|].
        apply (Hfirst j q'); [lia | exact Hq'].
      * intros q Hin. apply elem_of_cons in Hin as [-> | Hin]; [exact Hd | apply IH, Hin].
Qed.

(** X16: detectRedundancy maps every text the analyzer reports back to the
    id of the first existing question with that text, and to the empty id when
    no existing question has it; so of two existing questions with the same
    text only the first is ever named.  The flag, the recommendation and the
    similarities are passed through, and a failing analyzer gives a
    non-redundant answer with no entries instead of an exception. *)
Theorem X16_detectRedundancy_ids
    (service : string -> list string -> float -> result RedundancyResult)
    (o : UseSemanticAnalysisOptions) (newText : string) (existing : list ExistingQuestion) :
  match service newText (map eq_text existing) (get_similarityThreshold o) with
  | Ok r =>
      ans_isRedundant (detectRedundancy service o newText existing) = isRedundant r
      /\ ans_recommendation (detectRedundancy service o newText existing) = recommendation r
      /\ length (ans_similarQuestions (detectRedundancy service o newText existing))
         = length (similarTexts r)
      /\ forall k similar,
           similarTexts r !! k = Some similar ->
           exists entry,
             ans_similarQuestions (detectRedundancy service o newText existing) !! k = Some entry
             /\ sqi_text entry = st_text similar
             /\ sqi_similarity entry = st_similarity similar
             /\ ((exists i q, existing !! i = Some q
                              /\ eq_text q = st_text similar
                              /\ (forall j q', (j < i)%nat -> existing !! j = Some q' ->
                                               eq_text q' <> st_text similar)
                              /\ sqi_id entry = eq_id q)
                 \/ ((forall q, q ∈ existing -> eq_text q <> st_text similar)
                     /\ sqi_id entry = ""))
  | Err _ =>
      detectRedundancy service o newText existing
      = {| ans_isRedundant := false;
           ans_similarQuestions := [];
           ans_recommendation := "Unable to check for redundancy" |}
  end.
Proof.
  unfold detectRedundancy.
  destruct (service newText (map eq_text existing) (get_similarityThreshold o)) as [r|e];
    [|reflexivity].
  cbn. split; [reflexivity|]. split; [reflexivity|]. split; [apply length_map|].
  intros k similar Hk. rewrite lookup_map, Hk. cbn. eexists. split; [reflexivity|]. cbn.
  split; [reflexivity|]. split; [reflexivity|].
  pose proof (find_by_text_spec existing (st_text similar)) as Hfind.
  destruct (find_by_text existing (st_text similar)) as [q|]; cbn.
  - left. destruct Hfind as (i & Hi & Ht & Hfirst). exists i, q. auto.
  - right. auto.
Qed.

End DetectRedundancyFacts.

Section AnalyzeFacts.
Import Semantic SemanticQueries.

Variable an : Analyzer.
Variable threshold : float.
Variable questions : list BankQuestion.

(** A completed iteration has pushed the expected pair, if there is one. *)
Lemma compare_pair_pair_at (i j : nat) (acc acc1 : Acc) :
  compare_pair an threshold questions i acc j = Ok acc1 ->
  acc1 = match pair_at an threshold questions i j with
         | Some p => (fst acc ++ [p], S (snd acc))
         | None => acc
         end.
Proof.
  unfold compare_pair, pair_at.
  destruct (questions !! i) as [qi|]; [|discriminate].
  destruct (questions !! j) as [qj|]; [|discriminate].
  destruct (calculateSimilarity an (text qi) (text qj)) as [sim|e]; [|discriminate].
  destruct (JsNum.geb sim threshold); intros Hbody; injection Hbody as <-; reflexivity.
Qed.

(** A completed inner loop has pushed the expected pairs of its row. *)
Lemma inner_loop_collects (i : nat) (js : list nat) (acc acc' : Acc) :
  for_each (compare_pair an threshold questions i) js acc = Ok acc' ->
  fst acc' = fst acc ++ omap (pair_at an threshold questions i) js
  /\ snd acc' = (snd acc + length (omap (pair_at an threshold questions i) js))%nat.
Proof.
  revert acc. induction js as [|j js IH]; intros acc Hrun; cbn in Hrun.
  - injection Hrun as <-. cbn. rewrite app_nil_r. split; [reflexivity | lia].
  - destruct (compare_pair an threshold questions i acc j) as [acc1|e] eqn:Hbody;
      [|discriminate Hrun].
    destruct (IH acc1 Hrun) as [Hf Hs]. rewrite Hf, Hs.
    rewrite (compare_pair_pair_at i j acc acc1 Hbody).
    change (omap (pair_at an threshold questions i) (j :: js))
      with (match pair_at an threshold questions i j with
            | Some p => p :: omap (pair_at an threshold questions i) js
            | None => omap (pair_at an threshold questions i) js
            end).
    destruct (pair_at an threshold questions i j) as [p|]; cbn [fst snd length].
    + rewrite <- app_assoc. split; [reflexivity | lia].
    + split; [reflexivity | lia].
Qed.

(** The rows of the outer loop. *)
Lemma outer_loop_collects (rows : list nat) (acc acc' : Acc) :
  for_each (inner_loop an threshold questions) rows acc = Ok acc' ->
  fst acc' = fst acc ++
      concat (map (fun i => omap (pair_at an threshold questions i)
                                 (seq (S i) (length questions - S i))) rows)
  /\ snd acc' = (snd acc + length (fst acc') - length (fst acc))%nat.
Proof.
  revert acc. induction rows as [|i rows IH]; intros acc Hrun; cbn in Hrun.
  - injection Hrun as <-. cbn. rewrite app_nil_r. split; [reflexivity | lia].
  - destruct (inner_loop an threshold questions acc i) as [acc1|e] eqn:Hrow;
      [|discriminate Hrun].
    destruct (IH acc1 Hrun) as [Hf Hs].
    destruct (inner_loop_collects i _ acc acc1 Hrow) as [Hf1 Hs1].
    rewrite Hs, Hf, Hf1, Hs1. cbn [map concat]. rewrite <- app_assoc.
    split; [reflexivity|]. rewrite !length_app. lia.
Qed.

(** What a completed run of the two loops has collected. *)
Lemma detectPairs_collects (ps : list SimilarPair) (k : nat) :
  detectPairs an threshold questions = Ok (ps, k) ->
  ps = concat (map (fun i => omap (pair_at an threshold questions i)
                                  (seq (S i) (length questions - S i)))
                   (seq 0 (length questions)))
  /\ k = length ps.
Proof.
  intros Hrun. destruct (outer_loop_collects _ _ _ Hrun) as [Hf Hs]. cbn in Hf, Hs.
  split; [exact Hf | lia].
Qed.

(** A loop all of whose iterations complete completes. *)
Lemma for_each_completes {A S} (body : S -> A -> result S) (l : list A) (s : S) :
  (forall a s0, a ∈ l -> exists s1, body s0 a = Ok s1) ->
  exists s', for_each body l s = Ok s'.
Proof.
  revert s. induction l as [|a l IH]; intros s Hbody; cbn; [eauto|].
  destruct (Hbody a s (list_elem_of_here _ _)) as [s1 ->].
  apply IH. intros a' s0 Hin. apply Hbody. apply list_elem_of_further, Hin.
Qed.

(** A loop with an iteration that throws whatever the accumulator throws. *)
Lemma for_each_throws {A S} (body : S -> A -> result S) (l : list A) (s : S) (a : A) :
  a ∈ l ->
  (forall s0, exists e, body s0 a = Err e) ->
  exists e, for_each body l s = Err e.
Proof.
  revert s. induction l as [|x l IH]; intros s Hin Hbody; [inversion Hin|].
  cbn. apply elem_of_cons in Hin as [<- | Hin].
  - destruct (Hbody s) as [e ->]. eauto.
  - destruct (body s x) as [s1|e]; [apply IH; assumption | eauto].
Qed.

Lemma omap_length_le {A B} (f : A -> option B) (l : list A) :
  (length (omap f l) <= length l)%nat.
Proof.
  induction l as [|a l IH]; [reflexivity|].
  change (omap f (a :: l)) with (match f a with Some b => b :: omap f l | None => omap f l end).
  destruct (f a); cbn [length]; lia.
Qed.

(** The number of index pairs [i < j] below [n], doubled. *)
Lemma pairs_bound (f : nat -> nat -> option SimilarPair) (n a m : nat) :
  (a + m = n)%nat ->
  (2 * length (concat (map (fun i => omap (f i) (seq (S i) (n - S i))) (seq a m)))
   <= m * (m - 1))%nat.
Proof.
  revert a. induction m as [|m IH]; intros a Hn; cbn [seq map concat]; [cbn; lia|].
  rewrite length_app.
  pose proof (IH (S a) ltac:(lia)) as Hrest.
  assert (Hrow : (length (omap (f a) (seq (S a) (n - S a))) <= m)%nat).
  { etransitivity; [apply omap_length_le|]. rewrite length_seq. lia. }
  nia.
Qed.

End AnalyzeFacts.

Section AnalyzeClaims.
Import Semantic SemanticQueries.

(** The state analyzeQuestionBank leaves when the two loops complete. *)
Lemma analyzeQuestionBank_completed (an : Analyzer) (o : UseSemanticAnalysisOptions)
    (questions : list BankQuestion) (st : SemanticAnalysisState)
    (ps : list SimilarPair) (k : nat) :
  detectPairs an (get_similarityThreshold o) questions = Ok (ps, k) ->
  exists recs,
    redundancyReport (analyzeQuestionBank an o questions st)
    = Some {| duplicatesFound := k; similarPairs := ps; recommendations := recs |}.
Proof.
  intros Hrun. unfold analyzeQuestionBank, clusterQuestions. rewrite Hrun.
  destruct (get_clusteringEnabled o);
    [destruct (analyzer_clusterQuestions an questions)|]; cbn; eauto.
Qed.

(** The state analyzeQuestionBank leaves when a similarity call throws. *)
Lemma analyzeQuestionBank_failed (an : Analyzer) (o : UseSemanticAnalysisOptions)
    (questions : list BankQuestion) (st : SemanticAnalysisState) (e : Thrown) :
  detectPairs an (get_similarityThreshold o) questions = Err e ->
  error (analyzeQuestionBank an o questions st) = Some (error_message "Analysis failed" e)
  /\ loading (analyzeQuestionBank an o questions st) = false
  /\ redundancyReport (analyzeQuestionBank an o questions st) = redundancyReport st.
Proof.
  intros Hrun. unfold analyzeQuestionBank, clusterQuestions. rewrite Hrun.
  destruct (get_clusteringEnabled o);
    [destruct (analyzer_clusterQuestions an questions)|]; cbn; auto.
Qed.

(** X17: when every similarity computation succeeds, analyzeQuestionBank
    reports exactly the pairs of questions at positions i < j whose similarity
    reaches the threshold, each once with the ids of the two questions and
    that similarity; duplicatesFound is the number of reported pairs, which is
    at most n(n-1)/2 for n questions (none for fewer than two). *)
Theorem X17_analyzeQuestionBank_reports_exactly (an : Analyzer)
    (o : UseSemanticAnalysisOptions) (questions : list BankQuestion)
    (st : SemanticAnalysisState) :
  (forall i j qi qj, (i < j)%nat -> questions !! i = Some qi -> questions !! j = Some qj ->
     exists sim, calculateSimilarity an (text qi) (text qj) = Ok sim) ->
  exists r,
    redundancyReport (analyzeQuestionBank an o questions st) = Some r
    /\ duplicatesFound r = length (similarPairs r)
    /\ (2 * length (similarPairs r) <= length questions * (length questions - 1))%nat
    /\ forall p,
         p ∈ similarPairs r <->
         exists i j qi qj sim,
           (i < j)%nat
           /\ questions !! i = Some qi
           /\ questions !! j = Some qj
           /\ calculateSimilarity an (text qi) (text qj) = Ok sim
           /\ JsNum.geb sim (get_similarityThreshold o) = true
           /\ p = {| id1 := id qi; id2 := id qj; similarity := sim |}.
Proof.
  intros Hsim. set (t := get_similarityThreshold o).
  assert (Hdone : exists acc, detectPairs an t questions = Ok acc).
  { unfold detectPairs. apply for_each_completes. intros i acc Hi.
    apply elem_of_seq in Hi. unfold inner_loop. apply for_each_completes.
    intros j acc0 Hj. apply elem_of_seq in Hj. unfold compare_pair.
    destruct (lookup_lt_is_Some_2 questions i ltac:(lia)) as [qi Hqi].
    destruct (lookup_lt_is_Some_2 questions j ltac:(lia)) as [qj Hqj].
    rewrite Hqi, Hqj.
    destruct (Hsim i j qi qj ltac:(lia) Hqi Hqj) as [sim ->].
    destruct (JsNum.geb sim t); eauto. }
  destruct Hdone as [[ps k] Hrun].
  destruct (analyzeQuestionBank_completed an o questions st ps k Hrun) as [recs Hreport].
  destruct (detectPairs_collects an t questions ps k Hrun) as [Hps Hk].
  eexists. split; [exact Hreport|]. cbn. split; [exact Hk|]. split.
  - rewrite Hps. apply (pairs_bound (pair_at an t questions) (length questions) 0). lia.
  - intros p. rewrite Hps, list_elem_of_In, in_concat. split.
    + intros (row & Hrow & Hp). apply in_map_iff in Hrow as (i & <- & Hi).
      apply list_elem_of_In, list_elem_of_omap in Hp as (j & Hj & Hpair).
      apply elem_of_seq in Hj. unfold pair_at in Hpair.
      destruct (questions !! i) as [qi|] eqn:Hqi; [|discriminate Hpair].
      destruct (questions !! j) as [qj|] eqn:Hqj; [|discriminate Hpair].
      destruct (calculateSimilarity an (text qi) (text qj)) as [sim|e] eqn:Hcalc;
        [|discriminate Hpair].
      destruct (JsNum.geb sim t) eqn:Hge; [|discriminate Hpair].
      injection Hpair as <-. exists i, j, qi, qj, sim. repeat split; auto; lia.
    + intros (i & j & qi & qj & sim & Hij & Hqi & Hqj & Hcalc & Hge & ->).
      pose proof (lookup_lt_Some _ _ _ Hqi) as Hi.
      pose proof (lookup_lt_Some _ _ _ Hqj) as Hj.
      exists (omap (pair_at an t questions i) (seq (S i) (length questions - S i))).
      split.
      * apply in_map_iff. exists i. split; [reflexivity|].
        apply list_elem_of_In, elem_of_seq. lia.
      * apply list_elem_of_In, list_elem_of_omap. exists j. split.
        -- apply elem_of_seq. lia.
        -- unfold pair_at. rewrite Hqi, Hqj, Hcalc.
           change (JsNum.geb sim t = true) in Hge. rewrite Hge. reflexivity.
Qed.

(** X18: when the similarity computation throws for some pair of questions
    at positions i < j, analyzeQuestionBank records an error, clears the
    loading flag and leaves the redundancy report of the state untouched. *)
Theorem X18_similarity_failure_keeps_report (an : Analyzer)
    (o : UseSemanticAnalysisOptions) (questions : list BankQuestion)
    (st : SemanticAnalysisState) (i j : nat) (qi qj : BankQuestion) (e0 : Thrown) :
  (i < j)%nat ->
  questions !! i = Some qi ->
  questions !! j = Some qj ->
  calculateSimilarity an (text qi) (text qj) = Err e0 ->
  is_Some (error (analyzeQuestionBank an o questions st))
  /\ loading (analyzeQuestionBank an o questions st) = false
  /\ redundancyReport (analyzeQuestionBank an o questions st) = redundancyReport st.
Proof.
  intros Hij Hqi Hqj Hcalc.
  pose proof (lookup_lt_Some _ _ _ Hqj) as Hj.
  assert (Hthrow : exists e, detectPairs an (get_similarityThreshold o) questions = Err e).
  { unfold detectPairs. apply (for_each_throws _ _ _ i); [apply elem_of_seq; lia|].
    intros acc. unfold inner_loop. apply (for_each_throws _ _ _ j); [apply elem_of_seq; lia|].
    intros acc0. unfold compare_pair. rewrite Hqi, Hqj, Hcalc. eauto. }
  destruct Hthrow as [e He].
  destruct (analyzeQuestionBank_failed an o questions st e He) as (Herr & Hload & Hrep).
  rewrite Herr. split; [eauto | split; assumption].
Qed.

(** X19: a failure of the clustering step does not stop the analysis: the
    redundancy report is produced from the pairs found, with no cluster
    recommendation, while the error field holds the clustering error. *)
Theorem X19_clustering_failure_not_fatal (an : Analyzer)
    (o : UseSemanticAnalysisOptions) (questions : list BankQuestion)
    (st : SemanticAnalysisState) (e : Thrown) (ps : list SimilarPair) (k : nat) :
  get_clusteringEnabled o = true ->
  analyzer_clusterQuestions an questions = Err e ->
  detectPairs an (get_similarityThreshold o) questions = Ok (ps, k) ->
  error (analyzeQuestionBank an o questions st) = Some (error_message "Clustering failed" e)
  /\ clusters (analyzeQuestionBank an o questions st) = clusters st
  /\ redundancyReport (analyzeQuestionBank an o questions st)
     = Some {| duplicatesFound := k;
               similarPairs := ps;
               recommendations :=
                 if (0 <? k)%nat
                 then ["Found " +:+ pretty k +:+ " potentially redundant question pairs";
                       "Review similar questions for consolidation opportunities"]
                 else [] |}.
Proof.
  intros Hon Hcluster Hrun. unfold analyzeQuestionBank, clusterQuestions.
  rewrite Hon, Hcluster, Hrun. cbn. unfold recommend. cbn. rewrite app_nil_r.
  repeat split.
Qed.

End AnalyzeClaims.

(** * Further properties of the TOS matrix *)
Section TOSSummaryFacts.
Import TOSMatrix TOSSummary Spec.
Local Open Scope nat_scope.

(** X20: the three summary cards always add up to the grand total: the
    counts of easy (remembering, understanding), average (applying, analyzing)
    and difficult (evaluating, creating) items are all defined and their sum
    is the grand total of the matrix, for any distribution. *)
Theorem X20_summary_cards_add_up (data : TOSData) :
  exists e a d : nat,
    easyItems data = Some e
    /\ averageItems data = Some a
    /\ difficultItems data = Some d
    /\ e = levelTotal data remembering + levelTotal data understanding
    /\ a = levelTotal data applying + levelTotal data analyzing
    /\ d = levelTotal data evaluating + levelTotal data creating
    /\ e + a + d = grandTotal data.
Proof.
  assert (Hget : forall k, object_get k (bloomTotals data) = Some (levelTotal data k)).
  { intros []; reflexivity. }
  unfold easyItems, averageItems, difficultItems, card. rewrite !Hget.
  eexists _, _, _. do 6 (split; [reflexivity|]).
  unfold grandTotal. rewrite bloomTotals_unfold.
  cbn [object_values map snd fold_left]. lia.
Qed.

(** The cells of one row hold as many item numbers as its counts say. *)
Lemma rowCounts_sum (t : TopicDistribution) :
  sum_list (rowCounts t)
  = length (concat (map (fun level => cell (key level) t) bloomLevels)).
Proof.
  unfold rowCounts. cbn. rewrite !length_app. cbn. lia.
Qed.

(** X21: the counts shown in the cells of the matrix add up, over all
    rows, to the grand total; the Total column shows the stored row totals,
    which the component does not recompute, so the column adds up to the grand
    total when every stored total equals the sum of the counts of its row. *)
Theorem X21_rows_add_up (data : TOSData) :
  sum_list (map (fun row => sum_list (rowCounts (snd row))) (distribution data))
    = grandTotal data
  /\ ((forall row, row ∈ distribution data ->
         rowTotal (snd row) = Z.of_nat (sum_list (rowCounts (snd row)))) ->
      foldr Z.add 0%Z (map (fun row => rowTotal (snd row)) (distribution data))
        = Z.of_nat (grandTotal data)).
Proof.
  assert (Hcells : sum_list (map (fun row => sum_list (rowCounts (snd row)))
                                 (distribution data)) = grandTotal data).
  { rewrite grandTotal_counts_cells. unfold all_item_numbers, object_values.
    induction (distribution data) as [|row rows IH]; [reflexivity|].
    cbn [map concat sum_list_with sum_list]. rewrite length_app, <- IH, rowCounts_sum.
    reflexivity. }
  split; [exact Hcells|].
  intros Hstored. rewrite <- Hcells. clear Hcells.
  induction (distribution data) as [|row rows IH]; [reflexivity|].
  cbn [map foldr sum_list_with sum_list].
  rewrite IH, Hstored, Nat2Z.inj_add.
  - reflexivity.
  - apply list_elem_of_here.
  - intros row' Hin. apply Hstored. apply list_elem_of_further, Hin.
Qed.

End TOSSummaryFacts.

Section ContiguousBlockFacts.
Import TOSMatrix Spec.
Local Open Scope Z_scope.

(** X22: a contiguous block of item numbers a, a+1, ..., b with a < b, as
    the blueprint assigns to a cell, is displayed as the single range
    '(a-b)'. *)
Theorem X22_contiguous_block_is_one_range (a b : Z) :
  a < b ->
  formatItemNumbers (seqZ a (b - a + 1)) = "(" +:+ (pretty a +:+ "-" +:+ pretty b) +:+ ")".
Proof.
  intros Hab.
  rewrite seqZ_cons by lia.
  replace (Z.pred (b - a + 1)) with (Z.of_nat (S (Z.to_nat (b - a - 1)))) by lia.
  replace (Z.succ a) with (a + 1) by lia.
  assert (Hshape : exists y rest,
             seqZ (a + 1) (Z.of_nat (S (Z.to_nat (b - a - 1)))) = y :: rest).
  { rewrite seqZ_cons by lia. eauto. }
  destruct Hshape as (y & rest & Hshape).
  pose proof (group_loop_runs (seqZ (a + 1) (Z.of_nat (S (Z.to_nat (b - a - 1))))) [] a a
                (Z.le_refl a)) as Hloop.
  pose proof (runs_from_continue a a (S (Z.to_nat (b - a - 1))) []) as Hruns.
  rewrite app_nil_r in Hruns. rewrite Hruns in Hloop. clear Hruns.
  rewrite Hshape in *. unfold formatItemNumbers.
  destruct (fold_left group_step (y :: rest) ([], a, a)) as [[groups start] end_].
  rewrite Hloop. cbn [runs_from map app join String.concat].
  unfold render. cbn [fst snd].
  replace (a + Z.of_nat (S (Z.to_nat (b - a - 1)))) with b by lia.
  rewrite (proj2 (Z.ltb_lt a b) Hab). reflexivity.
Qed.

End ContiguousBlockFacts.

(** * Further properties of the test preview *)
Section GroupingFacts.
Import TestPreview TestPreviewGrouping.

Variable inherited : string -> bool.

Lemma grouping_completes (items : list TestItem) (acc : gmap string (list TestItem)) :
  (forall item, item ∈ items -> inherited (type_of item) = false) ->
  exists groups,
    Semantic.for_each (group_item inherited) items acc = Ok groups
    /\ forall ty, groups !! ty = grown acc items ty.
Proof.
  revert acc. induction items as [|item items IH]; intros acc Hplain.
  - exists acc. split; [reflexivity|]. intros ty. unfold grown.
    destruct (acc !! ty); [rewrite filter_nil, app_nil_r|]; reflexivity.
  - cbn [Semantic.for_each]. unfold group_item at 1.
    rewrite (Hplain item (list_elem_of_here _ _)).
    assert (Hrest : forall item', item' ∈ items -> inherited (type_of item') = false).
    { intros item' Hin. apply Hplain, list_elem_of_further, Hin. }
    destruct (acc !! type_of item) as [group|] eqn:Hacc.
    + destruct (IH (<[type_of item := group ++ [item]]> acc) Hrest) as (groups & Hrun & Hgroups).
      exists groups. split; [exact Hrun|]. intros ty. rewrite Hgroups. unfold grown.
      destruct (decide (type_of item = ty)) as [<-|Hne].
      * rewrite lookup_insert_eq, Hacc, filter_cons_True, <- app_assoc by reflexivity.
        reflexivity.
      * rewrite lookup_insert_ne, filter_cons_False by assumption. reflexivity.
    + destruct (IH (<[type_of item := [item]]> acc) Hrest) as (groups & Hrun & Hgroups).
      exists groups. split; [exact Hrun|]. intros ty. rewrite Hgroups. unfold grown.
      destruct (decide (type_of item = ty)) as [<-|Hne].
      * rewrite lookup_insert_eq, Hacc, filter_cons_True by reflexivity. reflexivity.
      * rewrite lookup_insert_ne, filter_cons_False by assumption. reflexivity.
Qed.

Lemma grouping_throws (items : list TestItem) (acc : gmap string (list TestItem))
    (item : TestItem) :
  (forall ty, is_Some (acc !! ty) -> inherited ty = false) ->
  item ∈ items ->
  inherited (type_of item) = true ->
  exists e, Semantic.for_each (group_item inherited) items acc = Err e.
Proof.
  revert acc. induction items as [|x items IH]; intros acc Hacc Hin Hinh; [inversion Hin|].
  cbn [Semantic.for_each]. unfold group_item at 1.
  destruct (acc !! type_of x) as [group|] eqn:Hx.
  - assert (Hplain : inherited (type_of x) = false) by (apply Hacc; eauto).
    apply elem_of_cons in Hin as [-> | Hin]; [congruence|].
    apply IH; [|exact Hin | exact Hinh].
    intros ty [g Hg]. destruct (decide (type_of x = ty)) as [<-|Hne]; [exact Hplain|].
    rewrite lookup_insert_ne in Hg by exact Hne. apply Hacc. eauto.
  - destruct (inherited (type_of x)) eqn:Hix; [eauto|].
    apply elem_of_cons in Hin as [-> | Hin]; [congruence|].
    apply IH; [|exact Hin | exact Hinh].
    intros ty [g Hg]. destruct (decide (type_of x = ty)) as [<-|Hne]; [exact Hix|].
    rewrite lookup_insert_ne in Hg by exact Hne. apply Hacc. eauto.
Qed.

(** X23: grouping the items by type loses and duplicates nothing: when no
    item has a type that names an inherited property of an object literal,
    questionsByType has, for every type, exactly the items of that type in
    test order, and no entry for a type without items; when some item has such
    a type (for example 'constructor') the grouping throws and the preview
    does not render. *)
Theorem X23_questionsByType_groups (items : list TestItem) :
  ((forall item, item ∈ items -> inherited (type_of item) = false) ->
   exists groups,
     questionsByType inherited items = Ok groups
     /\ forall ty,
          groups !! ty =
            match filter (fun item => type_of item = ty) items with
            | [] => None
            | group => Some group
            end)
  /\ ((exists item, item ∈ items /\ inherited (type_of item) = true) ->
      exists e, questionsByType inherited items = Err e).
Proof.
  split.
  - intros Hplain. destruct (grouping_completes items ∅ Hplain) as (groups & Hrun & Hgroups).
    exists groups. split; [exact Hrun|]. intros ty. rewrite Hgroups. unfold grown.
    rewrite lookup_empty. reflexivity.
  - intros (item & Hin & Hinh). apply (grouping_throws items ∅ item); [|exact Hin | exact Hinh].
    intros ty [g Hg]. rewrite lookup_empty in Hg. discriminate Hg.
Qed.

End GroupingFacts.

Section PreviewDetailsFacts.
Import TestPreview TestPreviewGrouping.

(** X24: the two columns of a matching item split its choices without
    losing or repeating one, and column A has as many entries as column B or
    one more. *)
Theorem X24_matching_columns_balanced {A} (entries : list A) :
  columnA entries ++ columnB entries = entries
  /\ length (columnB entries) <= length (columnA entries)
  /\ length (columnA entries) <= length (columnB entries) + 1.
Proof.
  unfold columnA, columnB, ceil_half. split; [apply take_drop|].
  rewrite length_take, length_drop.
  pose proof (Nat.div_mod_eq (length entries + 1) 2) as Hdiv.
  pose proof (Nat.mod_upper_bound (length entries + 1) 2 ltac:(lia)) as Hmod.
  lia.
Qed.

Lemma str_or_nonempty (a : option string) (b : string) : b <> "" -> str_or a b <> "".
Proof.
  intros Hb. unfold str_or. destruct a as [s|]; [|exact Hb].
  destruct (bool_decide (s = "")) eqn:Hs; [exact Hb|].
  apply bool_decide_eq_false in Hs. exact Hs.
Qed.

(** A line of the answer key never shows a blank answer (a missing or
    empty answer is shown as 'N/A'), is numbered from 1, and shows the points
    label only when the item is worth more than one point. *)
Lemma answer_key_entry_facts (index : nat) (item : TestItem) :
  ke_answer (key_entry index item) <> ""
  /\ ke_number (key_entry index item) = index + 1
  /\ (correct_answer item = None -> correctAnswer item = None ->
      ke_answer (key_entry index item) = "N/A")
  /\ (forall p, ke_points (key_entry index item) = PointsLabel p ->
        points item = Some p /\ JsNum.ltb 1%float p = true).
Proof.
  unfold key_entry. cbn. split; [|split; [reflexivity|split]].
  - apply str_or_nonempty, str_or_nonempty. discriminate.
  - intros -> ->. reflexivity.
  - intros p. destruct (points item) as [p0|]; [|discriminate].
    unfold JsNum.ltb.
    destruct (JsNum.truthy p0), (PrimFloat.ltb 1 p0) eqn:Hlt; cbn; try discriminate.
    intros Heq. injection Heq as <-. split; [reflexivity | exact Hlt].
Qed.

(** X25: every click on Print leads to at most one printed page: through
    any sequence of clicks, toggles and timer events, the number of pages
    printed plus the number of print timers still pending grows exactly by the
    number of clicks on Print. *)
Theorem X25_one_page_per_print_click (test : GeneratedTest) (evs : list Event) (ui : UI) :
  length (printouts (run test evs ui)) + timers (run test evs ui)
  = length (printouts ui) + timers ui + clicks evs.
Proof.
  revert ui. induction evs as [|ev evs IH]; intros ui; [cbn; lia|].
  cbn [run fold_left]. change (fold_left (step test) evs (step test ui ev))
    with (run test evs (step test ui ev)).
  rewrite IH. unfold clicks.
  destruct ev; cbn [step].
  - rewrite filter_cons_False by discriminate. reflexivity.
  - rewrite filter_cons_True by reflexivity. cbn. lia.
  - rewrite filter_cons_False by discriminate.
    unfold printCallback. destruct (timers ui) eqn:Ht; [rewrite Ht; reflexivity|].
    cbn. rewrite length_app. cbn. lia.
Qed.

End PreviewDetailsFacts.

(** * The parts of the generated test *)
Section GeneratedTestFacts.
Import GeneratedTest.

(** X26: the three parts of the generated test partition its questions:
    every question is in exactly one of the easy, average and difficult parts
    (together they are a rearrangement of the question list), each part keeps
    the order of the list, and the rendered parts, empty ones left out, still
    hold every question. *)
Theorem X26_parts_partition (testQuestions : list TestQuestion) :
  easyQuestions testQuestions ++ averageQuestions testQuestions
    ++ difficultQuestions testQuestions ≡ₚ testQuestions
  /\ easyQuestions testQuestions `sublist_of` testQuestions
  /\ averageQuestions testQuestions `sublist_of` testQuestions
  /\ difficultQuestions testQuestions `sublist_of` testQuestions
  /\ concat (map snd (parts testQuestions))
     = easyQuestions testQuestions ++ averageQuestions testQuestions
         ++ difficultQuestions testQuestions.
Proof.
  unfold easyQuestions, averageQuestions, difficultQuestions.
  split; [|split; [|split; [|split]]]; try apply sublist_filter.
  - induction testQuestions as [|q qs IH]; [reflexivity|].
    destruct (difficulty q) eqn:Hd.
    + rewrite (filter_cons_True (fun q => difficulty q = Easy)) by exact Hd.
      rewrite !filter_cons_False by congruence. cbn. rewrite IH. reflexivity.
    + rewrite (filter_cons_True (fun q => difficulty q = Average)) by exact Hd.
      rewrite !filter_cons_False by congruence.
      rewrite <- app_comm_cons, <- Permutation_middle, IH. reflexivity.
    + rewrite (filter_cons_True (fun q => difficulty q = Difficult)) by exact Hd.
      rewrite !filter_cons_False by congruence.
      rewrite app_assoc, <- Permutation_middle, <- app_assoc, IH. reflexivity.
  - unfold parts, easyQuestions, averageQuestions, difficultQuestions.
    destruct (filter (fun q => difficulty q = Easy) testQuestions),
      (filter (fun q => difficulty q = Average) testQuestions),
      (filter (fun q => difficulty q = Difficult) testQuestions);
      cbn; rewrite ?app_nil_r; reflexivity.
Qed.

End GeneratedTestFacts.

(** * Concrete runs for the further properties *)
Section MoreValidationExamples.
Import Validation ValidationQueries Samples MoreSamples.

Lemma X2_witness :
  exec (submitValidation "q1" vr_sample) env_alice store_sample = Ok submitted_store
  /\ questions submitted_store !! "q2" = questions store_sample !! "q2"
  /\ length (review_requests submitted_store) = 2
  /\ review_requests submitted_store !! 1%nat = Some (request_for "r2" (Some "bob")).
Proof.
  assert (Hrun : exec (submitValidation "q1" vr_sample) env_alice store_sample
                 = Ok submitted_store) by reflexivity.
  destruct (X2_submitValidation_frame env_alice "alice" "q1" vr_sample store_sample
              submitted_store eq_refl Hrun) as (Hother & _ & Hlen & Hreq).
  split; [exact Hrun|]. split; [apply Hother; discriminate|]. split; [exact Hlen|].
  apply Hreq; [reflexivity | right; discriminate].
Defined.

Lemma X3_witness :
  review_requests submitted_store !! 0%nat
  = Some (set_status completed (request_for "r1" (Some "alice"))).
Proof.
  apply (X3_submitValidation_completes_any_status env_alice "alice" "q1" vr_sample
           store_sample submitted_store 0 (request_for "r1" (Some "alice")));
    reflexivity.
Defined.

Lemma X4_witness :
  review_requests rejected_store = review_requests store_sample
  /\ length (classification_validations rejected_store) = 1.
Proof.
  destruct (X4_rejectValidation_requests_and_unknown_id env_alice "alice" "q1"
              "ambiguous stem" store_sample rejected_store eq_refl eq_refl)
    as (Hreq & _ & Hlog).
  split; [exact Hreq|]. rewrite Hlog. reflexivity.
Defined.

Lemma X5_witness :
  exists s1 s2 r,
    exec (requestValidation "r3" "q1" expert_review (Some "bob")) env_alice store_sample = Ok s1
    /\ exec (submitValidation "q1" vr_sample) env_bob s1 = Ok s2
    /\ review_requests s2 !! 2%nat = Some r
    /\ rr_id r = "r3"
    /\ rr_status r = completed.
Proof.
  apply (X5_request_then_submit env_alice env_bob "alice" "bob" "r3" "q1" expert_review
           (Some "bob") vr_sample store_sample); [reflexivity | reflexivity |].
  exists q_sample. reflexivity.
Defined.

Lemma X7_witness :
  pendingValidations
    (loadValidationRequests created_at_sample keep_order keep_order
       env_alice submitted_queue initialState)
  = [to_request created_at_sample submitted_queue request_q9]
  /\ req_question_id (to_request created_at_sample submitted_queue request_q9) <> "q1"
  /\ req_status (to_request created_at_sample submitted_queue request_q9) = pending.
Proof.
  split; [reflexivity|].
  apply (X7_pending_list_after_submit created_at_sample keep_order keep_order
           (fun l => reflexivity l) env_alice "alice" "q1" vr_sample store_queue
           submitted_queue initialState
           (to_request created_at_sample submitted_queue request_q9));
    [reflexivity | reflexivity |].
  apply list_elem_of_here.
Defined.

End MoreValidationExamples.

Section MoreClassificationExamples.
Import Classification ClassificationView Samples MoreSamples.

Lemma X9_witness :
  validationStatus (fst (classifyQuestion (svc_answering c_good) opts_default
                           cs_initial qi_sample cs_initial))
  = vs_validated.
Proof.
  exact (X9_status_agrees_with_needsReview (svc_answering c_good) opts_default cs_initial
           qi_sample cs_initial
           (fst (classifyQuestion (svc_answering c_good) opts_default
                   cs_initial qi_sample cs_initial))
           (snd (classifyQuestion (svc_answering c_good) opts_default
                   cs_initial qi_sample cs_initial))
           eq_refl eq_refl).
Defined.

Lemma X10_witness :
  ("Low classification confidence - needs human review"
     ∉ qualityIssues (fst (classifyQuestion (svc_answering c_good) opts_default
                             cs_initial qi_sample cs_initial)))
  /\ ("Question quality below threshold"
        ∉ qualityIssues (fst (classifyQuestion (svc_answering c_good) opts_default
                                cs_initial qi_sample cs_initial))).
Proof.
  destruct (X10_high_flags_exclude_issues (svc_answering c_good) opts_default cs_initial
              qi_sample cs_initial
              (fst (classifyQuestion (svc_answering c_good) opts_default
                      cs_initial qi_sample cs_initial))
              (snd (classifyQuestion (svc_answering c_good) opts_default
                      cs_initial qi_sample cs_initial))
              eq_refl eq_refl) as [Hconf Hqual].
  split; [apply Hconf | apply Hqual]; reflexivity.
Defined.

Lemma X11_witness :
  classifyQuestion svc_search_down opts_no_similarity cs_initial qi_sample cs_initial
  = classifyQuestion (svc_answering c_good) opts_no_similarity cs_initial qi_sample cs_initial.
Proof.
  apply (X11_checkSimilarity_off_ignores_search svc_search_down (svc_answering c_good)
           opts_no_similarity cs_initial qi_sample cs_initial);
    reflexivity.
Defined.

Lemma X12_witness :
  similarQuestions cs_with_similar <> []
  /\ [("temp", "q7", 0.9%float, "semantic_analyzer_v1")]
     = map (fun sim => ("temp", sq_id sim, sq_similarity sim, "semantic_analyzer_v1"))
           (similarQuestions cs_with_similar).
Proof.
  apply (X12_stored_similarities_are_stale (svc_answering c_good) opts_default
           cs_with_similar qi_sample cs_with_similar).
  cbn. do 2 apply list_elem_of_further. apply list_elem_of_here.
Defined.

Lemma X13_witness :
  length (similarQuestions (fst (classifyQuestion (svc_answering c_lowconf) opts_default
                                   cs_initial qi_sample cs_initial))) <= 5
  /\ length (qualityIssues (fst (classifyQuestion (svc_answering c_lowconf) opts_default
                                   cs_initial qi_sample cs_initial))) <= 4.
Proof.
  apply (X13_classification_bounds (svc_answering c_lowconf) opts_default cs_initial
           qi_sample cs_initial _
           (snd (classifyQuestion (svc_answering c_lowconf) opts_default
                   cs_initial qi_sample cs_initial)));
    reflexivity.
Defined.

Lemma X14_witness :
  exists st',
    validateClassification (Some "alice") (Some qi_sample) p_bloom_only None cs_classified
      = (st', [InsertedValidation "temp" c_lowconf p_bloom_only "alice" 0.9%float None;
               ToastSuccess "Classification validated successfully"])
    /\ validationStatus st' = vs_validated
    /\ needsReview st' = true
    /\ result_ st' = Some (merge c_lowconf p_bloom_only)
    /\ qualityIssues st' = qualityIssues cs_classified.
Proof.
  apply (X14_validated_yet_needs_review "alice" qi_sample p_bloom_only None cs_classified
           c_lowconf); [reflexivity | discriminate].
Defined.

End MoreClassificationExamples.

Section MoreSemanticExamples.
Import Semantic SemanticQueries Samples MoreSamples.

Lemma X17_witness :
  exists r,
    redundancyReport (analyzeQuestionBank analyzer_sample (opts_threshold 0.8%float)
                        bank_sample sa_initial) = Some r
    /\ duplicatesFound r = length (similarPairs r)
    /\ 2 * length (similarPairs r) <= length bank_sample * (length bank_sample - 1).
Proof.
  destruct (X17_analyzeQuestionBank_reports_exactly analyzer_sample
              (opts_threshold 0.8%float) bank_sample sa_initial)
    as (r & Hr & Hk & Hbound & _).
  - intros i j qi qj _ _ _. eexists. reflexivity.
  - exists r. split; [exact Hr | split; [exact Hk | exact Hbound]].
Defined.

Lemma X18_witness :
  is_Some (error (analyzeQuestionBank analyzer_down (opts_threshold 0.8%float)
                    bank_sample sa_initial))
  /\ loading (analyzeQuestionBank analyzer_down (opts_threshold 0.8%float)
                bank_sample sa_initial) = false
  /\ redundancyReport (analyzeQuestionBank analyzer_down (opts_threshold 0.8%float)
                         bank_sample sa_initial) = redundancyReport sa_initial.
Proof.
  destruct (bank_sample !! 0%nat) as [qi|] eqn:Hqi; [|discriminate Hqi].
  destruct (bank_sample !! 1%nat) as [qj|] eqn:Hqj; [|discriminate Hqj].
  apply (X18_similarity_failure_keeps_report analyzer_down (opts_threshold 0.8%float)
           bank_sample sa_initial 0 1 qi qj (ErrorObject "timeout"));
    [lia | exact Hqi | exact Hqj | reflexivity].
Defined.

Lemma X19_witness :
  error (analyzeQuestionBank analyzer_cluster_down (opts_threshold 0.8%float)
           bank_sample sa_initial) = Some "Clustering failed"
  /\ length (flaggedPairs (analyzeQuestionBank analyzer_cluster_down
                             (opts_threshold 0.8%float) bank_sample sa_initial)) = 1.
Proof.
  destruct (X19_clustering_failure_not_fatal analyzer_cluster_down
              (opts_threshold 0.8%float) bank_sample sa_initial OtherValue
              (fst pairs_at_08) (snd pairs_at_08) eq_refl eq_refl eq_refl)
    as (Herr & _ & Hrep).
  split; [exact Herr|]. unfold flaggedPairs. rewrite Hrep. reflexivity.
Defined.

End MoreSemanticExamples.

Section ContiguousBlockExamples.
Import TOSMatrix.

Lemma X22_witness : formatItemNumbers [3; 4; 5; 6; 7]%Z = "(3-7)".
Proof. exact (X22_contiguous_block_is_one_range 3 7 eq_refl). Defined.

End ContiguousBlockExamples.
